(** * RecyWise wizard: the screen/state orchestration of [frontend/src/App.jsx]

    A shallow embedding of the React component [App]: its seven state
    cells, the four handler functions, the [Container]/[BackButton] helper
    components and [renderScreen], together with the event loop that feeds
    clicks, edits and settled HTTP requests to them. *)

From Stdlib Require Import ZArith List String Ascii Bool Lia.
From Stdlib Require Import PrimFloat FloatOps SpecFloat.
From Stdlib Require Import DecimalString.
Import ListNotations.

Local Open Scope string_scope.
Local Open Scope Z_scope.

(* ================================================================== *)
(** ** The fragment of JavaScript the component relies on *)
(* ================================================================== *)

Module JS.

(** Text is kept as a sequence of one-byte characters. [toUpperCase] is
    the ASCII part of String.prototype.toUpperCase: it agrees with it on
    text whose characters are all below 128 and is not meant for other
    text, where the real function can also lengthen the string. *)

Definition upper_char (c : ascii) : ascii :=
  let n := nat_of_ascii c in
  if ((97 <=? n)%nat && (n <=? 122)%nat)%bool then ascii_of_nat (n - 32) else c.

Fixpoint toUpperCase (s : string) : string :=
  match s with
  | EmptyString => EmptyString
  | String c rest => String (upper_char c) (toUpperCase rest)
  end.

(** A form or JSON field: a string or an IEEE double. *)
Inductive JsVal : Type :=
  | JStr (s : string)
  | JNum (x : float).

(** ToBoolean: [''], [0], [-0] and [NaN] are falsy. *)
Definition truthy_string (s : string) : bool :=
  negb (String.eqb s "").

Definition truthy_number (x : float) : bool :=
  negb (PrimFloat.eqb x 0%float || PrimFloat.is_nan x).

Definition truthy (v : JsVal) : bool :=
  match v with
  | JStr s => truthy_string s
  | JNum x => truthy_number x
  end.

(** [a || b] on numbers. *)
Definition or_number (a b : float) : float :=
  if truthy_number a then a else b.

(** An object literal with its keys in insertion order, for keys that are
    not integer-like (the material names); [{...o, [key]: value}] keeps
    the position of a key that is already there. *)
Definition Obj : Type := list (string * JsVal).

Fixpoint obj_set (key : string) (value : JsVal) (o : Obj) : Obj :=
  match o with
  | [] => [(key, value)]
  | (k, v) :: rest =>
      if String.eqb k key then (k, value) :: rest
      else (k, v) :: obj_set key value rest
  end.

Definition obj_keys (o : Obj) : list string := map fst o.

(** [o[key]]; [None] is [undefined]. *)
Fixpoint obj_get (key : string) (o : Obj) : option JsVal :=
  match o with
  | [] => None
  | (k, v) :: rest => if String.eqb k key then Some v else obj_get key rest
  end.

(** *** Number.prototype.toFixed

    The exact value of a finite double is [m * 2^e]; [toFixed f] prints the
    integer [n] nearest to [x * 10^f] (the larger one on a tie) with a
    point before its last [f] digits. From 10^21 on the standard switches
    to exponent notation, which is not modelled: [None]. *)

Definition digits_of (n : Z) : string :=
  NilEmpty.string_of_uint (N.to_uint (Z.to_N n)).

Fixpoint zeros (k : nat) : string :=
  match k with
  | O => ""
  | S k' => String "0" (zeros k')
  end.

Definition place_point (f : nat) (n : Z) : string :=
  let m := digits_of n in
  match f with
  | O => m
  | _ =>
      let m' := if (String.length m <=? f)%nat
                then zeros (f + 1 - String.length m) ++ m else m in
      let k := String.length m' in
      substring 0 (k - f) m' ++ "." ++ substring (k - f) f m'
  end.

Definition toFixed (f : nat) (x : float) : option string :=
  match Prim2SF x with
  | S754_nan => Some "NaN"
  | S754_infinity false => Some "Infinity"
  | S754_infinity true => Some "-Infinity"
  | S754_zero _ => Some (place_point f 0)
  | S754_finite neg m e =>
      let num := Z.pos m * 2 ^ Z.max e 0 in
      let den := 2 ^ Z.max (- e) 0 in
      if 10 ^ 21 * den <=? num then None
      else
        let n := (2 * num * 10 ^ Z.of_nat f + den) / (2 * den) in
        Some ((if neg then "-" else "") ++ place_point f n)
  end.

End JS.

Import JS.

(* ================================================================== *)
(** ** The component state and its handlers *)
(* ================================================================== *)

Module App.

Record VehicleData : Type := mkVehicle {
  year : JsVal;
  make : JsVal;
  model : JsVal
}.

Record PathwayStep : Type := mkPathwayStep {
  sequence : Z;
  action : string;
  projected_profit : float
}.

(** The seven [useState] cells of [App]; [pathway] starts as [null]. *)
Record State : Type := mkState {
  screen : Z;
  isLoading : bool;
  errorMsg : string;
  vin : string;
  vehicleData : VehicleData;
  materials : Obj;
  pathway : option (list PathwayStep)
}.

Definition initial : State :=
  {| screen := 1;
     isLoading := false;
     errorMsg := "";
     vin := "";
     vehicleData := {| year := JStr ""; make := JStr ""; model := JStr "" |};
     materials := [("Steel", JNum 0); ("Aluminum", JNum 0); ("Copper", JNum 0);
                   ("Plastics", JNum 0); ("Rubber", JNum 0); ("Glass", JNum 0)];
     pathway := None |}.

Definition setScreen (v : Z) (s : State) : State :=
  mkState v (isLoading s) (errorMsg s) (vin s) (vehicleData s) (materials s) (pathway s).

Definition setIsLoading (v : bool) (s : State) : State :=
  mkState (screen s) v (errorMsg s) (vin s) (vehicleData s) (materials s) (pathway s).

Definition setErrorMsg (v : string) (s : State) : State :=
  mkState (screen s) (isLoading s) v (vin s) (vehicleData s) (materials s) (pathway s).

Definition setVin (v : string) (s : State) : State :=
  mkState (screen s) (isLoading s) (errorMsg s) v (vehicleData s) (materials s) (pathway s).

Definition setVehicleData (v : VehicleData) (s : State) : State :=
  mkState (screen s) (isLoading s) (errorMsg s) (vin s) v (materials s) (pathway s).

Definition setMaterials (v : Obj) (s : State) : State :=
  mkState (screen s) (isLoading s) (errorMsg s) (vin s) (vehicleData s) v (pathway s).

Definition setPathway (v : option (list PathwayStep)) (s : State) : State :=
  mkState (screen s) (isLoading s) (errorMsg s) (vin s) (vehicleData s) (materials s) v.

(** The two axios calls, and what the gateway answers. *)
Inductive Request : Type :=
  | GetDecodeVin (v : string)
  | PostGeneratePathway (vehicle : VehicleData) (mats : Obj).

Inductive Response : Type :=
  | Decoded (data : VehicleData)
  | Generated (p : list PathwayStep)
  | Failed.

(** *** handleVinSubmit

    The part before [await] runs with the click and issues the request;
    the rest runs when the request settles: [Some data] is the [try]
    branch completing, [None] the [catch] branch, and [finally] follows
    both. *)
Definition handleVinSubmit (s : State) : State * Request :=
  (setErrorMsg "" (setIsLoading true s), GetDecodeVin (vin s)).

Definition handleVinSubmit_settled (r : option VehicleData) (s : State) : State :=
  let s' :=
    match r with
    | Some data =>
        setScreen 4
          (setVehicleData
             {| year := year data; make := make data; model := model data |} s)
    | None => setScreen 3 s
    end in
  setIsLoading false s'.

(** *** handleManualVehicleSubmit *)
Definition handleManualVehicleSubmit (s : State) : State :=
  if (negb (truthy (year (vehicleData s)))
      || negb (truthy (make (vehicleData s)))
      || negb (truthy (model (vehicleData s))))%bool
  then setErrorMsg "Please fill in all fields." s
  else setScreen 4 (setErrorMsg "" s).

(** *** handleSaveManualMaterials *)
Definition handleSaveManualMaterials (s : State) : State :=
  setScreen 6 s.

(** *** handleGeneratePathway *)
Definition handleGeneratePathway (s : State) : State * Request :=
  (setScreen 8 s, PostGeneratePathway (vehicleData s) (materials s)).

Definition handleGeneratePathway_settled
    (r : option (list PathwayStep)) (s : State) : State :=
  match r with
  | Some p => setScreen 9 (setPathway (Some p) s)
  | None => setScreen 6 (setErrorMsg "Failed to generate pathway." s)
  end.

(* ---------------------------------------------------------------- *)
(** *** What a screen offers *)

Inductive Control : Type :=
  | BtnBack
  | BtnStart
  | InputVin
  | BtnProceed
  | InputYear
  | InputMake
  | InputModel
  | BtnConfirmVehicle
  | BtnYesProceed
  | BtnDifferentVin
  | BtnAutoEstimate
  | BtnEnterManually
  | BtnGenerate
  | BtnEditValues
  | InputMaterial (key : string)
  | BtnSaveReview
  | BtnProcessNext.

Definition Control_eqb (a b : Control) : bool :=
  match a, b with
  | BtnBack, BtnBack | BtnStart, BtnStart | InputVin, InputVin
  | BtnProceed, BtnProceed | InputYear, InputYear | InputMake, InputMake
  | InputModel, InputModel | BtnConfirmVehicle, BtnConfirmVehicle
  | BtnYesProceed, BtnYesProceed | BtnDifferentVin, BtnDifferentVin
  | BtnAutoEstimate, BtnAutoEstimate | BtnEnterManually, BtnEnterManually
  | BtnGenerate, BtnGenerate | BtnEditValues, BtnEditValues
  | BtnSaveReview, BtnSaveReview | BtnProcessNext, BtnProcessNext => true
  | InputMaterial k, InputMaterial k' => String.eqb k k'
  | _, _ => false
  end.

Record Widget : Type := mkWidget {
  control : Control;
  disabled : bool;
  maxLength : option nat
}.

Definition button (c : Control) : Widget := mkWidget c false None.
Definition input (c : Control) : Widget := mkWidget c false None.

(** A rendered page: the heading, the controls in document order, the
    error box and, on the result screen, the text of the profit total. *)
Record View : Type := mkView {
  title : option string;
  widgets : list Widget;
  errorBox : option string;
  profitValue : option string
}.

(** [x && <element>] for a string [x] that may be missing. *)
Definition when_truthy (x : option string) : option string :=
  match x with
  | Some t => if truthy_string t then Some t else None
  | None => None
  end.

(** The [Container] component; the back button is there on every screen
    but the first. *)
Definition Container (title_ : option string) (screen_ : Z)
    (errorMsg_ : option string) (children : list Widget)
    (profit : option string) : View :=
  {| title := when_truthy title_;
     widgets := ((if 1 <? screen_ then [button BtnBack] else []) ++ children)%list;
     errorBox := when_truthy errorMsg_;
     profitValue := profit |}.

(** [pathway.reduce((sum, step) => sum + step.projected_profit, 0)] *)
Definition total_profit (p : list PathwayStep) : float :=
  fold_left (fun sum step => (sum + projected_profit step)%float) p 0%float.

(** The text of the profit total; [None] when [toFixed] leaves fixed
    notation. *)
Definition profit_text (p : option (list PathwayStep)) : option string :=
  match p with
  | Some steps => option_map (fun t => "$" ++ t) (toFixed 2 (total_profit steps))
  | None => Some ("$" ++ "0.00")
  end.

(** [renderScreen]; [None] is the [default] branch,
    "Error: Screen not found". *)
Definition renderScreen (s : State) : option View :=
  match screen s with
  | 1 => Some {| title := None; widgets := [button BtnStart];
                 errorBox := None; profitValue := None |}
  | 2 => Some (Container (Some "Smart Vehicle Recycling") (screen s) (Some (errorMsg s))
                 [ mkWidget InputVin false (Some 17%nat);
                   mkWidget BtnProceed
                     (isLoading s || (String.length (vin s) <? 5)%nat)%bool None ]
                 None)
  | 3 => Some (Container (Some "Manual Identification") (screen s) (Some (errorMsg s))
                 [ input InputYear; input InputMake; input InputModel;
                   button BtnConfirmVehicle ]
                 None)
  | 4 => Some (Container (Some "Confirm Vehicle") (screen s) (Some (errorMsg s))
                 [ button BtnYesProceed; button BtnDifferentVin ]
                 None)
  | 5 => Some (Container (Some "Material Estimation") (screen s) (Some (errorMsg s))
                 [ button BtnAutoEstimate; button BtnEnterManually ]
                 None)
  | 6 => Some (Container (Some "Review Composition") (screen s) (Some (errorMsg s))
                 [ button BtnGenerate; button BtnEditValues ]
                 None)
  | 7 => Some (Container (Some "Edit Material Composition") (screen s) (Some (errorMsg s))
                 (map (fun key => input (InputMaterial key)) (obj_keys (materials s))
                  ++ [ button BtnSaveReview ])%list
                 None)
  | 8 => Some (Container None (screen s) None [] None)
  | 9 => Some (Container (Some "Optimized Recycling Pathway") (screen s) (Some (errorMsg s))
                 [ button BtnProcessNext ]
                 (profit_text (pathway s)))
  | _ => None
  end.

End App.

Import App.

(* ================================================================== *)
(** ** The event loop *)
(* ================================================================== *)

Module Machine.

(** What reaches the handlers of a control. A change carries
    [e.target.value] as the field hands it over (a number field hands over
    [''] or the text of a valid number; the model lets any text through,
    which only adds events); a blur carries the text of the field and the
    number the host's [parseFloat] reads from it. *)
Inductive UserEvent : Type :=
  | Click (c : Control)
  | Change (c : Control) (value : string)
  | Blur (c : Control) (value : string) (parsed : float).

Definition target (e : UserEvent) : Control :=
  match e with
  | Click c => c
  | Change c _ => c
  | Blur c _ _ => c
  end.

(** The [onClick] props. *)
Definition onClick (c : Control) (s : State) : State * list Request :=
  match c with
  | BtnBack => (setScreen (screen s - 1) s, [])
  | BtnStart => (setScreen 2 s, [])
  | BtnProceed => let (s', q) := handleVinSubmit s in (s', [q])
  | BtnConfirmVehicle => (handleManualVehicleSubmit s, [])
  | BtnYesProceed => (setScreen 5 s, [])
  | BtnDifferentVin => (setScreen 2 (setVin "" s), [])
  | BtnAutoEstimate => (s, [])
  | BtnEnterManually => (setScreen 7 s, [])
  | BtnGenerate => let (s', q) := handleGeneratePathway s in (s', [q])
  | BtnEditValues => (setScreen 7 s, [])
  | BtnSaveReview => (handleSaveManualMaterials s, [])
  | BtnProcessNext => (setScreen 1 s, [])
  | InputVin | InputYear | InputMake | InputModel | InputMaterial _ => (s, [])
  end.

(** The [onChange] props. *)
Definition onChange (c : Control) (value : string) (s : State) : State :=
  let v := vehicleData s in
  match c with
  | InputVin => setVin (toUpperCase value) s
  | InputYear =>
      setVehicleData {| year := JStr value; make := make v; model := model v |} s
  | InputMake =>
      setVehicleData {| year := year v; make := JStr value; model := model v |} s
  | InputModel =>
      setVehicleData {| year := year v; make := make v; model := JStr value |} s
  | InputMaterial key => setMaterials (obj_set key (JStr value) (materials s)) s
  | _ => s
  end.

(** The [onBlur] prop of a material field:
    [value === '' ? 0 : parseFloat(value) || 0]. *)
Definition onBlur (c : Control) (value : string) (parsed : float) (s : State) : State :=
  match c with
  | InputMaterial key =>
      let x := if String.eqb value "" then 0%float else or_number parsed 0%float in
      setMaterials (obj_set key (JNum x) (materials s)) s
  | _ => s
  end.

Definition dispatch (e : UserEvent) (s : State) : State * list Request :=
  match e with
  | Click c => onClick c s
  | Change c value => (onChange c value s, [])
  | Blur c value parsed => (onBlur c value parsed s, [])
  end.

(** Which props a control has: [onClick] on the buttons, [onChange] on the
    text fields, [onBlur] on the material fields only. *)
Definition is_input (c : Control) : bool :=
  match c with
  | InputVin | InputYear | InputMake | InputModel | InputMaterial _ => true
  | _ => false
  end.

Definition has_handler (e : UserEvent) : bool :=
  match e with
  | Click c => negb (is_input c)
  | Change c _ => is_input c
  | Blur (InputMaterial _) _ _ => true
  | Blur _ _ _ => false
  end.

(** An event reaches a handler when the page shows the control, the
    control has that handler and is not disabled, and typed text respects
    [maxLength]. *)
Definition fits (e : UserEvent) (w : Widget) : bool :=
  match e, maxLength w with
  | Change _ value, Some n => (String.length value <=? n)%nat
  | _, _ => true
  end.

Definition takes (e : UserEvent) (w : Widget) : bool :=
  (Control_eqb (control w) (target e) && has_handler e
   && negb (disabled w) && fits e w)%bool.

Definition accepts (v : View) (e : UserEvent) : bool :=
  existsb (takes e) (widgets v).

(** The page state together with the requests that have not settled. *)
Record World : Type := mkWorld {
  ui : State;
  inflight : list Request
}.

Definition boot : World := {| ui := initial; inflight := [] |}.

Fixpoint remove_at {A : Type} (i : nat) (l : list A) : list A :=
  match l, i with
  | [], _ => []
  | _ :: rest, O => rest
  | x :: rest, S i' => x :: remove_at i' rest
  end.

Definition user_step (w : World) (e : UserEvent) : option World :=
  match renderScreen (ui w) with
  | Some v =>
      if accepts v e then
        let (s', issued) := dispatch e (ui w) in
        Some {| ui := s'; inflight := (inflight w ++ issued)%list |}
      else None
  | None => None
  end.

(** Request number [i] settles with response [r]. *)
Definition settle (w : World) (i : nat) (r : Response) : option World :=
  let rest := remove_at i (inflight w) in
  match nth_error (inflight w) i, r with
  | Some (GetDecodeVin _), Decoded data =>
      Some {| ui := handleVinSubmit_settled (Some data) (ui w); inflight := rest |}
  | Some (GetDecodeVin _), Failed =>
      Some {| ui := handleVinSubmit_settled None (ui w); inflight := rest |}
  | Some (PostGeneratePathway _ _), Generated p =>
      Some {| ui := handleGeneratePathway_settled (Some p) (ui w); inflight := rest |}
  | Some (PostGeneratePathway _ _), Failed =>
      Some {| ui := handleGeneratePathway_settled None (ui w); inflight := rest |}
  | _, _ => None
  end.

Inductive Event : Type :=
  | User (e : UserEvent)
  | Settle (i : nat) (r : Response).

Definition step (w : World) (e : Event) : option World :=
  match e with
  | User u => user_step w u
  | Settle i r => settle w i r
  end.

Fixpoint run (w : World) (es : list Event) : option World :=
  match es with
  | [] => Some w
  | e :: rest =>
      match step w e with
      | Some w' => run w' rest
      | None => None
      end
  end.

Definition reachable (w : World) : Prop :=
  exists es, run boot es = Some w.

(** The controls of a page an event can reach. *)
Definition enabled_controls (s : State) : list Control :=
  match renderScreen s with
  | Some v => map control (filter (fun w => negb (disabled w)) (widgets v))
  | None => []
  end.

(** The widget a page shows for a control. *)
Definition widget_of (c : Control) (s : State) : option Widget :=
  match renderScreen s with
  | Some v => find (fun wd => Control_eqb (control wd) c) (widgets v)
  | None => None
  end.

Definition is_user (e : Event) : bool :=
  match e with User _ => true | Settle _ _ => false end.

(** Only a successful generation writes the pathway cell. *)
Definition is_generated (e : Event) : bool :=
  match e with
  | Settle _ (Generated _) => true
  | _ => false
  end.

Definition is_decode (q : Request) : bool :=
  match q with GetDecodeVin _ => true | PostGeneratePathway _ _ => false end.

End Machine.

Import Machine.

(* ================================================================== *)
(** ** Vocabulary of the properties *)
(* ================================================================== *)

(** The test of [handleManualVehicleSubmit]:
    [!year || !make || !model]. *)
Definition some_missing (v : VehicleData) : bool :=
  (negb (truthy (year v)) || negb (truthy (make v)) || negb (truthy (model v)))%bool.

(** The number of decode requests that have not settled, and its link
    with the [isLoading] flag. *)
Definition decodes (w : World) : nat :=
  List.length (filter is_decode (inflight w)).

Definition flag_matches (w : World) : Prop :=
  decodes w = if isLoading (ui w) then 1%nat else 0%nat.

(** While a decode is running and the user only acts on the pages, the
    wizard stays on the landing and VIN screens, and neither the vehicle
    record nor the (cleared) error message moves. *)
Definition waiting (V : VehicleData) (w : World) : Prop :=
  isLoading (ui w) = true /\
  (screen (ui w) = 1 \/ screen (ui w) = 2) /\
  vehicleData (ui w) = V /\
  errorMsg (ui w) = "".

(** The moves between screens a user action can make, read off the
    [onClick] props of [renderScreen] and [BackButton]. *)
Definition edges : list (Z * Z) :=
  [ (1, 2);
    (2, 1); (2, 2);
    (3, 2); (3, 3); (3, 4);
    (4, 3); (4, 5); (4, 2);
    (5, 4); (5, 5); (5, 7);
    (6, 5); (6, 8); (6, 7);
    (7, 6); (7, 7);
    (8, 7);
    (9, 8); (9, 1) ].

(** Finds a pair in [edges]. *)
Ltac pick_edge := simpl; repeat (first [left; reflexivity | right]).

(** The keys of the [materials] literal. *)
Definition material_names : list string :=
  ["Steel"; "Aluminum"; "Copper"; "Plastics"; "Rubber"; "Glass"].

(** A material value is text being typed or a number that is not NaN. *)
Definition text_or_number (v : JsVal) : bool :=
  match v with
  | JStr _ => true
  | JNum x => negb (PrimFloat.is_nan x)
  end.

Definition materials_shape (s : State) : Prop :=
  obj_keys (materials s) = material_names /\
  forallb (fun kv => text_or_number (snd kv)) (materials s) = true.

(** Text whose characters are all ASCII. *)
Fixpoint is_ascii (t : string) : bool :=
  match t with
  | EmptyString => true
  | String c rest => ((nat_of_ascii c <? 128)%nat && is_ascii rest)%bool
  end.

(** Only ASCII text is typed into the VIN field. *)
Definition types_ascii (e : Event) : bool :=
  match e with
  | User (Change InputVin value) => is_ascii value
  | _ => true
  end.

(** What the VIN field lets through when ASCII text is typed: at most 17
    characters, upper case. *)
Definition vin_shape (v : string) : Prop :=
  (String.length v <= 17)%nat /\ is_ascii v = true /\ toUpperCase v = v.

Definition vins_shape (w : World) : Prop :=
  vin_shape (vin (ui w)) /\
  forall v, In (GetDecodeVin v) (inflight w) ->
            (5 <= String.length v)%nat /\ vin_shape v.

(** The text of a valid floating-point number, which is what a number
    field hands to [onChange] when it is not empty: an optional minus
    sign, digits and/or a point followed by digits, and an optional
    exponent [e]/[E] with an optional sign and digits. *)
Definition is_digit (c : ascii) : bool :=
  ((48 <=? nat_of_ascii c)%nat && (nat_of_ascii c <=? 57)%nat)%bool.

Fixpoint drop_digits (t : string) : string :=
  match t with
  | String c rest => if is_digit c then drop_digits rest else t
  | EmptyString => EmptyString
  end.

Definition some_digits_then (k : string -> bool) (t : string) : bool :=
  let t' := drop_digits t in
  ((String.length t' <? String.length t)%nat && k t')%bool.

Definition exponent_ok (t : string) : bool :=
  match t with
  | EmptyString => true
  | String c rest =>
      if (Ascii.eqb c "e" || Ascii.eqb c "E")%bool then
        let rest' :=
          match rest with
          | String s r => if (Ascii.eqb s "-" || Ascii.eqb s "+")%bool then r else rest
          | EmptyString => rest
          end in
        some_digits_then (fun r => String.eqb r "") rest'
      else false
  end.

Definition valid_float_text (t : string) : bool :=
  let t1 := match t with
            | String c rest => if Ascii.eqb c "-" then rest else t
            | EmptyString => t
            end in
  let t2 := drop_digits t1 in
  match t2 with
  | String c rest =>
      if Ascii.eqb c "." then some_digits_then exponent_ok rest
      else ((String.length t2 <? String.length t1)%nat && exponent_ok t2)%bool
  | EmptyString => (String.length t2 <? String.length t1)%nat
  end.



(** The materials on the page and in every generation request that has
    not settled. *)
Definition materials_everywhere (w : World) : Prop :=
  materials_shape (ui w) /\
  forall v m, In (PostGeneratePathway v m) (inflight w) ->
              obj_keys m = material_names.



(** Which events can write which state cell. *)
Definition writes_vin (e : Event) : bool :=
  match e with
  | User (Change InputVin _) | User (Click BtnDifferentVin) => true
  | _ => false
  end.

Definition writes_vehicle (e : Event) : bool :=
  match e with
  | User (Change InputYear _) | User (Change InputMake _)
  | User (Change InputModel _) | Settle _ (Decoded _) => true
  | _ => false
  end.

Definition writes_materials (e : Event) : bool :=
  match e with
  | User (Change (InputMaterial _) _) | User (Blur (InputMaterial _) _ _) => true
  | _ => false
  end.

Definition writes_error (e : Event) : bool :=
  match e with
  | User (Click BtnProceed) | User (Click BtnConfirmVehicle)
  | Settle _ Failed => true
  | _ => false
  end.

(* ================================================================== *)
(** ** Scenario data *)
(* ================================================================== *)

Definition camry : VehicleData :=
  {| year := JNum 2015; make := JStr "Toyota"; model := JStr "Camry" |}.

Definition mix : Obj :=
  [("Steel", JNum 60); ("Aluminum", JNum 10); ("Copper", JNum 5);
   ("Plastics", JNum 15); ("Rubber", JNum 5); ("Glass", JNum 5)].

Definition plan : list PathwayStep :=
  [ {| sequence := 1; action := "Dismantle"; projected_profit := 120.5 |};
    {| sequence := 2; action := "Shred"; projected_profit := (-30) |} ].

Definition sample_vin : string := "1HGBH41JXMN109186".

(** From the landing page to the review screen with [camry] and [mix]. *)
Definition to_review : list Event :=
  [ User (Click BtnStart);
    User (Change InputVin "1hgbh41jxmn109186");
    User (Click BtnProceed);
    Settle 0 (Decoded camry);
    User (Click BtnYesProceed);
    User (Click BtnEnterManually);
    User (Change (InputMaterial "Steel") "60");
    User (Blur (InputMaterial "Steel") "60" 60);
    User (Blur (InputMaterial "Aluminum") "10" 10);
    User (Blur (InputMaterial "Copper") "5" 5);
    User (Blur (InputMaterial "Plastics") "15" 15);
    User (Blur (InputMaterial "Rubber") "5" 5);
    User (Blur (InputMaterial "Glass") "5" 5);
    User (Click BtnSaveReview) ].

Definition at_review : World :=
  {| ui := {| screen := 6; isLoading := false; errorMsg := ""; vin := sample_vin;
              vehicleData := camry; materials := mix; pathway := None |};
     inflight := [] |}.

(** The VIN screen with a full VIN typed in, and the same with the decode
    running. *)
Definition at_vin : World :=
  {| ui := setVin sample_vin (setScreen 2 initial); inflight := [] |}.

Definition decoding : World :=
  {| ui := setIsLoading true (ui at_vin); inflight := [GetDecodeVin sample_vin] |}.

(** The manual entry screen after a decode that delivered the year as the
    number 0 and one step back from the confirmation. *)
Definition year_zero : VehicleData :=
  {| year := JNum 0; make := JStr "Toyota"; model := JStr "Camry" |}.

Definition to_manual_year_zero : list Event :=
  [ User (Click BtnStart); User (Change InputVin sample_vin);
    User (Click BtnProceed); Settle 0 (Decoded year_zero);
    User (Click BtnBack) ].

Definition at_manual_year_zero : World :=
  {| ui := {| screen := 3; isLoading := false; errorMsg := ""; vin := sample_vin;
              vehicleData := year_zero; materials := materials initial;
              pathway := None |};
     inflight := [] |}.

(** The loading screen with the generation running, and the result
    screen. *)
Definition at_loading : World :=
  {| ui := setScreen 8 (ui at_review);
     inflight := [PostGeneratePathway camry mix] |}.

Definition at_results : World :=
  {| ui := setScreen 9 (setPathway (Some plan) (ui at_review)); inflight := [] |}.

(** The confirmation screen after the decode, the blank manual entry
    screen, and a page on a screen number the switch does not know. *)
Definition at_confirm : World :=
  {| ui := setScreen 4 (setVehicleData camry (ui at_vin)); inflight := [] |}.

Definition at_manual : World :=
  {| ui := setScreen 3 (ui at_vin); inflight := [] |}.

Definition off_the_map : World :=
  {| ui := setScreen 0 initial; inflight := [] |}.

(** The material edit screen. *)
Definition at_edit : World :=
  {| ui := setScreen 7 (ui at_review); inflight := [] |}.

(** With the generation running: back on the review screen, and back on
    the VIN screen. *)
Definition back_to_review : list Event :=
  (to_review ++
   [ User (Click BtnGenerate); User (Click BtnBack);
     User (Click BtnSaveReview) ])%list.

Definition back_to_vin : list Event :=
  (to_review ++
   [ User (Click BtnGenerate);
     User (Click BtnBack); User (Click BtnBack); User (Click BtnBack);
     User (Click BtnBack); User (Click BtnBack); User (Click BtnBack) ])%list.

Definition generation_pending (s : Z) : World :=
  {| ui := setScreen s (ui at_review);
     inflight := [PostGeneratePathway camry mix] |}.

(** Two ways to a second request while the generation is running. *)
Definition twice_generate : list Event :=
  (to_review ++
   [ User (Click BtnGenerate); User (Click BtnBack);
     User (Click BtnSaveReview); User (Click BtnGenerate) ])%list.

Definition generate_then_decode : list Event :=
  (to_review ++
   [ User (Click BtnGenerate);
     User (Click BtnBack); User (Click BtnBack); User (Click BtnBack);
     User (Click BtnBack); User (Click BtnBack); User (Click BtnBack);
     User (Click BtnProceed) ])%list.

(* ================================================================== *)
(** ** Sanity checks of the embedding *)
(* ================================================================== *)

Example toFixed_samples :
  toFixed 2 90.5%float = Some "90.50" /\
  toFixed 2 (-30)%float = Some "-30.00" /\
  toFixed 2 0%float = Some "0.00" /\
  toFixed 2 0.125%float = Some "0.13" /\
  toFixed 2 (-0.125)%float = Some "-0.13" /\
  toFixed 0 2.5%float = Some "3" /\
  toFixed 2 1234567.5%float = Some "1234567.50" /\
  toFixed 2 1e21%float = None.
Proof. repeat split; reflexivity. Qed.

Example valid_float_text_samples :
  map valid_float_text ["2015"; "-1.5e+3"; ".5"; "0"; "1E5"] =
    [true; true; true; true; true] /\
  map valid_float_text [""; "e"; "5."; "1e"; "+1"; "1.5.2"; "-"; "12a"] =
    [false; false; false; false; false; false; false; false].
Proof. split; reflexivity. Qed.

Example to_review_runs : run boot to_review = Some at_review.
Proof. vm_compute. reflexivity. Qed.

Example disabled_proceed_ignored :
  run boot [User (Click BtnStart); User (Click BtnProceed)] = None.
Proof. reflexivity. Qed.

Example landing_has_no_back : run boot [User (Click BtnBack)] = None.
Proof. reflexivity. Qed.

(* ================================================================== *)
(** ** Facts about rendering and dispatch *)
(* ================================================================== *)

Section Rendering.

Lemma renderScreen_known (s : State) :
  renderScreen s = None \/ In (screen s) [1; 2; 3; 4; 5; 6; 7; 8; 9].
Proof.
  unfold renderScreen.
  destruct (screen s) as [|p|p]; auto.
  do 4 (try destruct p as [p|p|]); auto; right; simpl; tauto.
Qed.

Lemma renderScreen_bounds (s : State) (v : View) :
  renderScreen s = Some v -> 1 <= screen s <= 9.
Proof.
  intros H. destruct (renderScreen_known s) as [E|E].
  - congruence.
  - simpl in E. lia.
Qed.

Lemma renderScreen_total (s : State) :
  1 <= screen s <= 9 -> exists v, renderScreen s = Some v.
Proof.
  intros H.
  assert (E : In (screen s) [1; 2; 3; 4; 5; 6; 7; 8; 9]) by (simpl; lia).
  unfold renderScreen. simpl in E.
  repeat (destruct E as [E|E]; [rewrite <- E; eexists; reflexivity|]).
  contradiction.
Qed.

(** The material fields take no click. *)
Lemma fields_take_no_click (c : Control) (keys : list string) :
  existsb (takes (Click c)) (map (fun key => input (InputMaterial key)) keys) = false.
Proof.
  induction keys as [|k keys IH]; simpl; auto.
  rewrite IH. unfold takes; simpl.
  destruct c; simpl; auto using andb_false_r.
  now rewrite andb_false_r.
Qed.

(** The back button is on a page only when [screen > 1]. *)
Lemma back_offered (s : State) (v : View) :
  renderScreen s = Some v -> accepts v (Click BtnBack) = true -> 1 < screen s.
Proof.
  intros R A. pose proof (renderScreen_bounds _ _ R) as B.
  destruct (Z.eq_dec (screen s) 1) as [E|E]; [|lia].
  unfold renderScreen in R. rewrite E in R. injection R as <-.
  discriminate A.
Qed.

End Rendering.

Section Frame.

(** Settling a request leaves the page on a known screen. *)
Lemma settle_screen (w w' : World) (i : nat) (r : Response) :
  settle w i r = Some w' -> In (screen (ui w')) [3; 4; 6; 9].
Proof.
  unfold settle. intros H.
  destruct (nth_error (inflight w) i) as [[v|v m]|]; destruct r;
    try discriminate; injection H as <-; simpl; tauto.
Qed.

Lemma user_step_bounds (w w' : World) (e : UserEvent) :
  user_step w e = Some w' -> 1 <= screen (ui w') <= 9.
Proof.
  unfold user_step. intros H.
  destruct (renderScreen (ui w)) as [v|] eqn:R; [|discriminate].
  destruct (accepts v e) eqn:A; [|discriminate].
  pose proof (renderScreen_bounds _ _ R) as B.
  destruct e as [c|c value|c value parsed].
  - destruct c; simpl in H; injection H as <-; simpl; try lia.
    + pose proof (back_offered _ _ R A). lia.
    + unfold handleManualVehicleSubmit.
      destruct (_ || _)%bool; simpl; lia.
  - destruct c; simpl in H; injection H as <-; simpl; lia.
  - destruct c; simpl in H; injection H as <-; simpl; lia.
Qed.

Lemma step_bounds (w w' : World) (e : Event) :
  step w e = Some w' -> 1 <= screen (ui w') <= 9.
Proof.
  destruct e as [u|i r]; simpl; intros H.
  - eauto using user_step_bounds.
  - apply settle_screen in H. simpl in H. lia.
Qed.

End Frame.

(** Invariants of the event loop: a property kept by every step whose
    event passes the filter [ok] holds along any run of such events. *)
Section Invariants.

Variable P : World -> Prop.
Variable ok : Event -> bool.
Hypothesis P_step :
  forall w w' e, ok e = true -> P w -> step w e = Some w' -> P w'.

Lemma run_invariant (es : list Event) (w w' : World) :
  forallb ok es = true -> P w -> run w es = Some w' -> P w'.
Proof.
  revert w. induction es as [|e es IH]; intros w F H R; simpl in *.
  - now injection R as <-.
  - apply andb_true_iff in F as [F1 F2].
    destruct (step w e) as [w1|] eqn:S; [|discriminate].
    apply (IH w1); eauto.
Qed.

End Invariants.

Lemma forallb_any {A : Type} (l : list A) : forallb (fun _ => true) l = true.
Proof. induction l; simpl; auto. Qed.

Lemma run_bounds (es : list Event) (w w' : World) :
  run w es = Some w' -> 1 <= screen (ui w) <= 9 -> 1 <= screen (ui w') <= 9.
Proof.
  intros R B.
  apply (run_invariant (fun x => 1 <= screen (ui x) <= 9) (fun _ => true))
    with (es := es) (w := w); auto using forallb_any.
  intros x x' e _ _. apply step_bounds.
Qed.

(* ================================================================== *)
(** ** Properties of the wizard *)
(* ================================================================== *)

(** C1. In every state reachable from the landing page (screen 1) by any
    sequence of user actions and settled requests, the screen number lies
    in 1..9; Back, offered only when the screen is above 1, cannot leave
    that range. *)
Theorem screen_in_range (w : World) :
  reachable w -> 1 <= screen (ui w) <= 9.
Proof.
  intros [es H]. apply (run_bounds es boot w H). simpl. lia.
Qed.

Lemma screen_in_range_witness :
  reachable at_review /\ 1 <= screen (ui at_review) <= 9.
Proof.
  assert (R : reachable at_review).
  { exists to_review. vm_compute. reflexivity. }
  split; [exact R | exact (screen_in_range at_review R)].
Defined.

(* ------------------------------------------------------------------ *)
(** *** Submitting a VIN *)

Section VinSubmission.

Variable w : World.
Hypothesis on_vin_screen : screen (ui w) = 2.
Hypothesis idle : isLoading (ui w) = false.
Hypothesis long_enough : (5 <= String.length (vin (ui w)))%nat.

(** The world right after the click on Proceed. *)
Let submitted : World :=
  {| ui := setErrorMsg "" (setIsLoading true (ui w));
     inflight := (inflight w ++ [GetDecodeVin (vin (ui w))])%list |}.

(** On the VIN screen the Proceed button answers a click when no decode
    is running and the VIN has five characters or more. *)
Lemma proceed_accepted : user_step w (Click BtnProceed) = Some submitted.
Proof.
  unfold user_step, renderScreen. rewrite on_vin_screen.
  unfold accepts, takes; simpl. rewrite idle.
  apply Nat.ltb_ge in long_enough. rewrite long_enough. reflexivity.
Qed.

Lemma submitted_waiting : waiting (vehicleData (ui w)) submitted.
Proof. repeat split; simpl; auto. Qed.

End VinSubmission.

Lemma decode_settles (w : World) (i : nat) (v : string) (r : option VehicleData) :
  nth_error (inflight w) i = Some (GetDecodeVin v) ->
  settle w i (match r with Some data => Decoded data | None => Failed end) =
  Some {| ui := handleVinSubmit_settled r (ui w);
          inflight := remove_at i (inflight w) |}.
Proof.
  intros H. unfold settle. rewrite H. destruct r; reflexivity.
Qed.

Lemma waiting_user_step (V : VehicleData) (w w' : World) (e : UserEvent) :
  waiting V w -> user_step w e = Some w' -> waiting V w'.
Proof.
  intros (L & [S|S] & D & M); unfold user_step, renderScreen; rewrite S;
    unfold accepts, takes; cbn [widgets Container existsb app];
    destruct e as [c|c value|c value parsed]; destruct c;
    simpl; rewrite ?L; simpl; try discriminate;
    try (destruct (_ <=? _)%nat; simpl; try discriminate);
    intros H; injection H as <-; repeat split; simpl; auto; lia.
Qed.

Lemma waiting_user_run (V : VehicleData) (es : list Event) (w w' : World) :
  forallb is_user es = true ->
  waiting V w -> run w es = Some w' -> waiting V w'.
Proof.
  apply run_invariant. intros x x' [u|i r] U W S; [|discriminate].
  eauto using waiting_user_step.
Qed.

(** C2. A VIN of five characters or more is submitted on the VIN screen;
    the submission is accepted and issues the decode request, and whatever
    happens in between, when that request succeeds with a payload
    [{year, make, model}] the resulting state is on screen 4 with the
    vehicle record equal to the payload. *)
Theorem vin_decode_success (w : World) :
  screen (ui w) = 2 ->
  isLoading (ui w) = false ->
  (5 <= String.length (vin (ui w)))%nat ->
  exists w1,
    user_step w (Click BtnProceed) = Some w1 /\
    In (GetDecodeVin (vin (ui w))) (inflight w1) /\
    forall es w2 i v data,
      run w1 es = Some w2 ->
      nth_error (inflight w2) i = Some (GetDecodeVin v) ->
      exists w3,
        settle w2 i (Decoded data) = Some w3 /\
        screen (ui w3) = 4 /\
        vehicleData (ui w3) = data.
Proof.
  intros S L V. eexists. split; [apply proceed_accepted; assumption|].
  split; [simpl; apply in_or_app; right; simpl; auto|].
  intros es w2 i v data _ N.
  eexists. split; [apply (decode_settles w2 i v (Some data) N)|].
  simpl. split; [reflexivity|]. destruct data; reflexivity.
Qed.

Lemma vin_decode_success_witness :
  exists w1,
    user_step at_vin (Click BtnProceed) = Some w1 /\
    In (GetDecodeVin sample_vin) (inflight w1) /\
    forall es w2 i v data,
      run w1 es = Some w2 ->
      nth_error (inflight w2) i = Some (GetDecodeVin v) ->
      exists w3,
        settle w2 i (Decoded data) = Some w3 /\
        screen (ui w3) = 4 /\
        vehicleData (ui w3) = data.
Proof.
  apply (vin_decode_success at_vin).
  - reflexivity.
  - reflexivity.
  - simpl. lia.
Defined.

(** A VIN is submitted and the decode fails. The failure leads to
    screen 3 and itself touches neither the vehicle record nor the error
    message; when nothing but user actions comes between the submission
    and the failure, the vehicle record is the one from before the
    submission and the error message is empty, so the page shows no error
    box. *)
Theorem vin_decode_failure (w : World) :
  screen (ui w) = 2 ->
  isLoading (ui w) = false ->
  (5 <= String.length (vin (ui w)))%nat ->
  exists w1,
    user_step w (Click BtnProceed) = Some w1 /\
    forall es w2 i v,
      run w1 es = Some w2 ->
      nth_error (inflight w2) i = Some (GetDecodeVin v) ->
      exists w3,
        settle w2 i Failed = Some w3 /\
        screen (ui w3) = 3 /\
        vehicleData (ui w3) = vehicleData (ui w2) /\
        errorMsg (ui w3) = errorMsg (ui w2) /\
        (forallb is_user es = true ->
         vehicleData (ui w3) = vehicleData (ui w) /\
         errorMsg (ui w3) = "" /\
         option_map errorBox (renderScreen (ui w3)) = Some None).
Proof.
  intros S L V. eexists. split; [apply proceed_accepted; assumption|].
  intros es w2 i v R N.
  eexists. split; [apply (decode_settles w2 i v None N)|].
  simpl. repeat split.
  all: destruct (waiting_user_run (vehicleData (ui w)) es _ w2 H
                   (submitted_waiting w S) R) as (_ & _ & D & M); auto.
  unfold renderScreen; simpl. unfold Container; simpl. now rewrite M.
Qed.

Lemma vin_decode_failure_witness :
  exists w1,
    user_step at_vin (Click BtnProceed) = Some w1 /\
    forall es w2 i v,
      run w1 es = Some w2 ->
      nth_error (inflight w2) i = Some (GetDecodeVin v) ->
      exists w3,
        settle w2 i Failed = Some w3 /\
        screen (ui w3) = 3 /\
        vehicleData (ui w3) = vehicleData (ui w2) /\
        errorMsg (ui w3) = errorMsg (ui w2) /\
        (forallb is_user es = true ->
         vehicleData (ui w3) = vehicleData (ui at_vin) /\
         errorMsg (ui w3) = "" /\
         option_map errorBox (renderScreen (ui w3)) = Some None).
Proof.
  apply (vin_decode_failure at_vin).
  - reflexivity.
  - reflexivity.
  - simpl. lia.
Defined.

(** C3. The code breaks the claim when requests overlap. With a
    generation running the user walks back to the VIN screen and submits
    the VIN; the generation fails, then the decode fails: the state is on
    screen 3 but shows "Failed to generate pathway.". If the user edits
    the make on the manual screen before the decode fails, the vehicle
    record is not the one from before the submission either. *)
Theorem decode_failure_after_overlap :
  let before := generation_pending 2 in
  run boot back_to_vin = Some before /\
  errorMsg (ui before) = "" /\
  exists submitted,
    user_step before (Click BtnProceed) = Some submitted /\
    (exists after,
       run submitted [Settle 0 Failed; Settle 0 Failed] = Some after /\
       inflight after = [] /\
       screen (ui after) = 3 /\
       errorMsg (ui after) = "Failed to generate pathway." /\
       option_map errorBox (renderScreen (ui after)) =
         Some (Some "Failed to generate pathway.")) /\
    (exists after,
       run submitted [ Settle 0 Failed; User (Click BtnBack); User (Click BtnBack);
                       User (Click BtnBack); User (Change InputMake "Honda");
                       Settle 0 Failed ] = Some after /\
       screen (ui after) = 3 /\
       vehicleData (ui before) = camry /\
       vehicleData (ui after) =
         {| year := JNum 2015; make := JStr "Honda"; model := JStr "Camry" |}).
Proof.
  cbv zeta. split; [vm_compute; reflexivity|]. split; [reflexivity|].
  eexists. split; [reflexivity|].
  split; eexists; (split; [vm_compute; reflexivity|repeat split]).
Qed.

(** The user walks to the landing page and back while the decode is
    running, then the decode fails. *)
Example decode_fails_after_a_walk :
  option_map (fun w => (screen (ui w), vehicleData (ui w), errorMsg (ui w), isLoading (ui w)))
    (run at_vin [ User (Click BtnProceed); User (Click BtnBack);
                  User (Click BtnStart); Settle 0 Failed ]) =
  Some (3, vehicleData initial, "", false).
Proof. reflexivity. Qed.

(* ------------------------------------------------------------------ *)
(** *** Manual vehicle entry *)

Lemma falsy_string (t : string) : truthy (JStr t) = false <-> t = "".
Proof.
  unfold truthy, truthy_string. rewrite negb_false_iff. apply String.eqb_eq.
Qed.

Lemma some_missing_strings (y m d : string) :
  some_missing {| year := JStr y; make := JStr m; model := JStr d |} = true <->
  y = "" \/ m = "" \/ d = "".
Proof.
  unfold some_missing. cbn [year make model].
  rewrite !orb_true_iff, !negb_true_iff, !falsy_string. tauto.
Qed.

Lemma confirm_vehicle_accepted (w : World) :
  screen (ui w) = 3 ->
  user_step w (Click BtnConfirmVehicle) =
  Some {| ui := handleManualVehicleSubmit (ui w); inflight := inflight w |}.
Proof.
  intros S. unfold user_step, renderScreen. rewrite S. simpl.
  now rewrite app_nil_r.
Qed.

(** C4 (as stated) fails when the decoder delivered the year as the number
    0: no field is empty, yet the submission is refused with the message
    and the screen stays. The state is reached by decoding a VIN and going
    back from the confirmation screen. *)
Lemma manual_submit_numeric_zero_year :
  run boot to_manual_year_zero = Some at_manual_year_zero /\
  exists w',
    user_step at_manual_year_zero (Click BtnConfirmVehicle) = Some w' /\
    ~ ((errorMsg (ui w') = "Please fill in all fields." /\
        screen (ui w') = screen (ui at_manual_year_zero)) <->
       (year year_zero = JStr "" \/ make year_zero = JStr "" \/
        model year_zero = JStr "")).
Proof.
  split; [vm_compute; reflexivity|].
  eexists. split; [reflexivity|].
  intros [H _].
  destruct H as [H|[H|H]]; [split; reflexivity | | |]; discriminate H.
Qed.

(** C4 (amended). On the manual entry screen, the submission sets the
    error message to "Please fill in all fields." and leaves the screen
    unchanged if and only if one of year, make, model is falsy (the empty
    string, or a number that is 0 or NaN); when all three are truthy it
    clears the message and goes to screen 4. For fields holding strings,
    as the form writes them, falsy means empty. *)
Theorem manual_vehicle_submit (w : World) :
  screen (ui w) = 3 ->
  exists w',
    user_step w (Click BtnConfirmVehicle) = Some w' /\
    (some_missing (vehicleData (ui w)) = true ->
       errorMsg (ui w') = "Please fill in all fields." /\
       screen (ui w') = screen (ui w)) /\
    (some_missing (vehicleData (ui w)) = false ->
       errorMsg (ui w') = "" /\ screen (ui w') = 4) /\
    ((errorMsg (ui w') = "Please fill in all fields." /\
      screen (ui w') = screen (ui w)) <->
     some_missing (vehicleData (ui w)) = true) /\
    (forall y m d,
       vehicleData (ui w) = {| year := JStr y; make := JStr m; model := JStr d |} ->
       (some_missing (vehicleData (ui w)) = true <-> y = "" \/ m = "" \/ d = "")).
Proof.
  intros S. eexists. split; [apply confirm_vehicle_accepted; assumption|].
  cbn [ui]. unfold handleManualVehicleSubmit. fold (some_missing (vehicleData (ui w))).
  destruct (some_missing (vehicleData (ui w))) eqn:E; simpl.
  - split; [auto|]. split; [discriminate|]. split; [tauto|].
    intros y m d V. rewrite V in E. split; [intros _|auto].
    now apply some_missing_strings.
  - split; [discriminate|]. split; [auto|]. split.
    + split; [intros [H _]|]; discriminate.
    + intros y m d V. rewrite V in E. split; [discriminate|].
      intros H. apply some_missing_strings in H. congruence.
Qed.

Lemma manual_vehicle_submit_witness :
  exists w',
    user_step at_manual_year_zero (Click BtnConfirmVehicle) = Some w' /\
    (some_missing (vehicleData (ui at_manual_year_zero)) = true ->
       errorMsg (ui w') = "Please fill in all fields." /\
       screen (ui w') = screen (ui at_manual_year_zero)) /\
    (some_missing (vehicleData (ui at_manual_year_zero)) = false ->
       errorMsg (ui w') = "" /\ screen (ui w') = 4) /\
    ((errorMsg (ui w') = "Please fill in all fields." /\
      screen (ui w') = screen (ui at_manual_year_zero)) <->
     some_missing (vehicleData (ui at_manual_year_zero)) = true) /\
    (forall y m d,
       vehicleData (ui at_manual_year_zero) =
         {| year := JStr y; make := JStr m; model := JStr d |} ->
       (some_missing (vehicleData (ui at_manual_year_zero)) = true <->
        y = "" \/ m = "" \/ d = "")).
Proof.
  apply (manual_vehicle_submit at_manual_year_zero). reflexivity.
Defined.

(* ------------------------------------------------------------------ *)
(** *** Generating the pathway *)

Section PathwayGeneration.

Lemma dispatch_pathway (e : UserEvent) (s : State) :
  pathway (fst (dispatch e s)) = pathway s.
Proof.
  destruct e as [c|c value|c value parsed]; destruct c; simpl; auto.
  unfold handleManualVehicleSubmit. destruct (_ || _)%bool; reflexivity.
Qed.

Lemma step_pathway (w w' : World) (e : Event) :
  is_generated e = false -> step w e = Some w' ->
  pathway (ui w') = pathway (ui w).
Proof.
  destruct e as [u|i r]; simpl; intros G H.
  - unfold user_step in H.
    destruct (renderScreen (ui w)) as [v|]; [|discriminate].
    destruct (accepts v u); [|discriminate].
    pose proof (dispatch_pathway u (ui w)) as P.
    destruct (dispatch u (ui w)) as [s' q]. injection H as <-. exact P.
  - unfold settle in H.
    destruct (nth_error (inflight w) i) as [[v|v m]|]; destruct r;
      try discriminate; injection H as <-; reflexivity.
Qed.

Lemma run_pathway (es : list Event) (w w' : World) :
  forallb (fun e => negb (is_generated e)) es = true ->
  run w es = Some w' -> pathway (ui w') = pathway (ui w).
Proof.
  intros G R.
  refine (run_invariant (fun x => pathway (ui x) = pathway (ui w)) _ _
            es w w' G eq_refl R).
  intros x x' e N E S. apply negb_true_iff in N.
  rewrite <- E. eauto using step_pathway.
Qed.

Lemma generate_accepted (w : World) :
  screen (ui w) = 6 ->
  user_step w (Click BtnGenerate) =
  Some {| ui := setScreen 8 (ui w);
          inflight := (inflight w
                       ++ [PostGeneratePathway (vehicleData (ui w)) (materials (ui w))])%list |}.
Proof.
  intros S. unfold user_step, renderScreen. rewrite S. reflexivity.
Qed.

Lemma generate_settles (w : World) (i : nat) (v : VehicleData) (m : Obj)
    (r : option (list PathwayStep)) :
  nth_error (inflight w) i = Some (PostGeneratePathway v m) ->
  settle w i (match r with Some p => Generated p | None => Failed end) =
  Some {| ui := handleGeneratePathway_settled r (ui w);
          inflight := remove_at i (inflight w) |}.
Proof.
  intros H. unfold settle. rewrite H. destruct r; reflexivity.
Qed.

End PathwayGeneration.

(** A pathway generation is requested from the review screen and
    fails. The failure leads to screen 6, sets the error message to
    exactly "Failed to generate pathway." and itself leaves the pathway
    alone; unless another generation succeeded in between, the pathway is
    the one from before the call ([null] on a first attempt). *)
Theorem generate_pathway_failure (w : World) :
  screen (ui w) = 6 ->
  exists w1,
    user_step w (Click BtnGenerate) = Some w1 /\
    screen (ui w1) = 8 /\
    forall es w2 i v m,
      run w1 es = Some w2 ->
      nth_error (inflight w2) i = Some (PostGeneratePathway v m) ->
      exists w3,
        settle w2 i Failed = Some w3 /\
        screen (ui w3) = 6 /\
        errorMsg (ui w3) = "Failed to generate pathway." /\
        option_map errorBox (renderScreen (ui w3)) =
          Some (Some "Failed to generate pathway.") /\
        pathway (ui w3) = pathway (ui w2) /\
        (forallb (fun e => negb (is_generated e)) es = true ->
         pathway (ui w3) = pathway (ui w)).
Proof.
  intros S. eexists. split; [apply generate_accepted; assumption|].
  split; [reflexivity|].
  intros es w2 i v m R N.
  eexists. split; [apply (generate_settles w2 i v m None N)|].
  repeat split.
  intros G. apply (run_pathway es _ _ G) in R. exact R.
Qed.

Lemma generate_pathway_failure_witness :
  exists w1,
    user_step at_review (Click BtnGenerate) = Some w1 /\
    screen (ui w1) = 8 /\
    forall es w2 i v m,
      run w1 es = Some w2 ->
      nth_error (inflight w2) i = Some (PostGeneratePathway v m) ->
      exists w3,
        settle w2 i Failed = Some w3 /\
        screen (ui w3) = 6 /\
        errorMsg (ui w3) = "Failed to generate pathway." /\
        option_map errorBox (renderScreen (ui w3)) =
          Some (Some "Failed to generate pathway.") /\
        pathway (ui w3) = pathway (ui w2) /\
        (forallb (fun e => negb (is_generated e)) es = true ->
         pathway (ui w3) = pathway (ui at_review)).
Proof.
  apply (generate_pathway_failure at_review). reflexivity.
Defined.

(** C5. The code breaks the claim when two generations overlap. With the
    first generation running the user goes back, saves and generates
    again while the pathway is still [null]; the first request succeeds,
    then the second fails: the state is on screen 6 with the message, but
    the pathway is the array of the first request, not the [null] from
    before the second call. *)
Theorem generation_failure_after_overlap :
  let before := generation_pending 6 in
  run boot back_to_review = Some before /\
  pathway (ui before) = None /\
  exists called after,
    user_step before (Click BtnGenerate) = Some called /\
    run called [Settle 0 (Generated plan); Settle 0 Failed] = Some after /\
    inflight after = [] /\
    screen (ui after) = 6 /\
    errorMsg (ui after) = "Failed to generate pathway." /\
    pathway (ui after) = Some plan /\
    pathway (ui after) <> pathway (ui before).
Proof.
  cbv zeta. split; [vm_compute; reflexivity|]. split; [reflexivity|].
  do 2 eexists. split; [reflexivity|].
  split; [vm_compute; reflexivity|]. repeat split. discriminate.
Qed.

(** The first attempt of the scenario fails: back on the review screen
    with the message and no pathway. *)
Example first_attempt_fails :
  option_map ui (run at_review [User (Click BtnGenerate); Settle 0 Failed]) =
  Some (setErrorMsg "Failed to generate pathway." (ui at_review)).
Proof. reflexivity. Qed.

(** C6. With vehicle [{year: 2015, make: "Toyota", model: "Camry"}] and
    materials [{Steel: 60, Aluminum: 10, Copper: 5, Plastics: 15, Rubber: 5,
    Glass: 5}] on the review screen, the generation request carries both,
    and when it succeeds with the two-step pathway (Dismantle 120.50,
    Shred -30.00) the state is on screen 9, the pathway is that array, the
    sum of the projected profits is 90.5 and the page shows the total
    "$90.50". *)
Theorem generate_pathway_scenario (w : World) :
  screen (ui w) = 6 ->
  vehicleData (ui w) = camry ->
  materials (ui w) = mix ->
  exists w1,
    user_step w (Click BtnGenerate) = Some w1 /\
    inflight w1 = (inflight w ++ [PostGeneratePathway camry mix])%list /\
    forall i v m,
      nth_error (inflight w1) i = Some (PostGeneratePathway v m) ->
      exists w2,
        settle w1 i (Generated plan) = Some w2 /\
        screen (ui w2) = 9 /\
        pathway (ui w2) = Some plan /\
        total_profit plan = 90.5%float /\
        option_map profitValue (renderScreen (ui w2)) = Some (Some "$90.50").
Proof.
  intros S V M. eexists. split; [apply generate_accepted; assumption|].
  split; [cbn; now rewrite V, M|].
  intros i v m N.
  eexists. split; [apply (generate_settles _ i v m (Some plan) N)|].
  repeat split.
Qed.

Lemma generate_pathway_scenario_witness :
  exists w1,
    user_step at_review (Click BtnGenerate) = Some w1 /\
    inflight w1 = (inflight at_review ++ [PostGeneratePathway camry mix])%list /\
    forall i v m,
      nth_error (inflight w1) i = Some (PostGeneratePathway v m) ->
      exists w2,
        settle w1 i (Generated plan) = Some w2 /\
        screen (ui w2) = 9 /\
        pathway (ui w2) = Some plan /\
        total_profit plan = 90.5%float /\
        option_map profitValue (renderScreen (ui w2)) = Some (Some "$90.50").
Proof.
  apply (generate_pathway_scenario at_review); reflexivity.
Defined.

Example scenario_runs :
  option_map (fun w => (screen (ui w), pathway (ui w), inflight w))
    (run boot (to_review ++ [User (Click BtnGenerate); Settle 0 (Generated plan)])) =
  Some (9, Some plan, []).
Proof. vm_compute. reflexivity. Qed.

(* ------------------------------------------------------------------ *)
(** *** The loading screen and the restart *)

(** C7 (as stated) fails: the loading screen is wrapped in [Container]
    like the others, so it shows the back button, and a click on it is
    taken while the request is still running. *)
Lemma loading_screen_takes_back :
  run boot (to_review ++ [User (Click BtnGenerate)]) = Some at_loading /\
  screen (ui at_loading) = 8 /\
  enabled_controls (ui at_loading) = [BtnBack] /\
  user_step at_loading (Click BtnBack) =
    Some {| ui := setScreen 7 (ui at_loading);
            inflight := [PostGeneratePathway camry mix] |} /\
  ~ (forall e, user_step at_loading e = None).
Proof.
  split; [vm_compute; reflexivity|].
  repeat split.
  intros H. discriminate (H (Click BtnBack)).
Qed.

(** C7 (amended). On screen 8 the page offers exactly one enabled control,
    the back button; the only user input taken there is a click on it,
    which leads to screen 7 and leaves the running requests alone. *)
Theorem loading_screen_offers_back_only (w : World) :
  screen (ui w) = 8 ->
  enabled_controls (ui w) = [BtnBack] /\
  user_step w (Click BtnBack) =
    Some {| ui := setScreen 7 (ui w); inflight := inflight w |} /\
  forall e w',
    user_step w e = Some w' ->
    e = Click BtnBack /\ screen (ui w') = 7 /\ inflight w' = inflight w.
Proof.
  intros S.
  assert (B : user_step w (Click BtnBack) =
              Some {| ui := setScreen 7 (ui w); inflight := inflight w |}).
  { unfold user_step, renderScreen. rewrite S. simpl.
    now rewrite S, app_nil_r. }
  split; [unfold enabled_controls, renderScreen; now rewrite S|].
  split; [exact B|].
  intros e w'.
  destruct e as [c|c value|c value parsed]; destruct c;
    try (unfold user_step, renderScreen; rewrite S; discriminate).
  rewrite B. intros H. injection H as <-. auto.
Qed.

Lemma loading_screen_offers_back_only_witness :
  enabled_controls (ui at_loading) = [BtnBack] /\
  user_step at_loading (Click BtnBack) =
    Some {| ui := setScreen 7 (ui at_loading); inflight := inflight at_loading |} /\
  forall e w',
    user_step at_loading e = Some w' ->
    e = Click BtnBack /\ screen (ui w') = 7 /\ inflight w' = inflight at_loading.
Proof.
  apply (loading_screen_offers_back_only at_loading). reflexivity.
Defined.

(** C8. "Process Next Vehicle" on screen 9 is taken and leads to screen 1;
    the vehicle record, the material composition and the pathway stay as
    they were. *)
Theorem process_next_vehicle (w : World) :
  screen (ui w) = 9 ->
  exists w',
    user_step w (Click BtnProcessNext) = Some w' /\
    screen (ui w') = 1 /\
    vehicleData (ui w') = vehicleData (ui w) /\
    materials (ui w') = materials (ui w) /\
    pathway (ui w') = pathway (ui w).
Proof.
  intros S. unfold user_step, renderScreen. rewrite S.
  eexists. split; [reflexivity|]. repeat split.
Qed.

Lemma process_next_vehicle_witness :
  exists w',
    user_step at_results (Click BtnProcessNext) = Some w' /\
    screen (ui w') = 1 /\
    vehicleData (ui w') = vehicleData (ui at_results) /\
    materials (ui w') = materials (ui at_results) /\
    pathway (ui w') = pathway (ui at_results).
Proof.
  apply (process_next_vehicle at_results). reflexivity.
Defined.

Example restart_keeps_data :
  option_map (fun w => (screen (ui w), vehicleData (ui w), materials (ui w), pathway (ui w)))
    (run at_results [User (Click BtnProcessNext)]) =
  Some (1, camry, mix, Some plan).
Proof. reflexivity. Qed.

(* ------------------------------------------------------------------ *)
(** *** Requests in flight *)

Section InFlight.

Lemma filter_remove_at_other {A : Type} (f : A -> bool) (l : list A) (i : nat) (x : A) :
  nth_error l i = Some x -> f x = false ->
  filter f (remove_at i l) = filter f l.
Proof.
  revert i. induction l as [|a l IH]; intros [|i] H F; simpl in *; try discriminate.
  - injection H as ->. now rewrite F.
  - rewrite (IH i H F). reflexivity.
Qed.

Lemma filter_remove_at_hit {A : Type} (f : A -> bool) (l : list A) (i : nat) (x : A) :
  nth_error l i = Some x -> f x = true ->
  S (List.length (filter f (remove_at i l))) = List.length (filter f l).
Proof.
  revert i. induction l as [|a l IH]; intros [|i] H F; simpl in *; try discriminate.
  - injection H as ->. now rewrite F.
  - destruct (f a); simpl; rewrite (IH i H F); reflexivity.
Qed.

(** Proceed answers a click only on the VIN screen with the flag down. *)
Lemma proceed_offered (s : State) (v : View) :
  renderScreen s = Some v -> accepts v (Click BtnProceed) = true ->
  screen s = 2 /\ isLoading s = false /\ (5 <= String.length (vin s))%nat.
Proof.
  intros R A. destruct (renderScreen_known s) as [E|E]; [congruence|].
  unfold renderScreen in R. simpl in E.
  repeat (destruct E as [E|E];
          [rewrite <- E in R; injection R as <-; unfold accepts in A;
           cbn [widgets Container Z.ltb Z.compare Pos.compare Pos.compare_cont] in A;
           try discriminate A|]);
    try contradiction.
  - unfold takes in A; simpl in A. rewrite andb_true_r, orb_false_r in A.
    apply negb_true_iff, orb_false_iff in A as [L V].
    apply Nat.ltb_ge in V. auto.
  - cbn [app] in A. cbn [existsb] in A.
    rewrite existsb_app, fields_take_no_click in A. discriminate A.
Qed.

Lemma dispatch_other (e : UserEvent) (s : State) :
  e <> Click BtnProceed ->
  isLoading (fst (dispatch e s)) = isLoading s /\
  filter is_decode (snd (dispatch e s)) = [].
Proof.
  intros N. destruct e as [c|c value|c value parsed]; destruct c; simpl; auto;
    try congruence.
  unfold handleManualVehicleSubmit. destruct (_ || _)%bool; auto.
Qed.

Lemma user_step_flag (w w' : World) (e : UserEvent) :
  flag_matches w -> user_step w e = Some w' -> flag_matches w'.
Proof.
  unfold flag_matches, decodes, user_step. intros F H.
  destruct (renderScreen (ui w)) as [v|] eqn:R; [|discriminate].
  destruct (accepts v e) eqn:A; [|discriminate].
  assert (D : {e = Click BtnProceed} + {e <> Click BtnProceed}).
  { destruct e as [c|c value|c value parsed]; try (right; discriminate).
    destruct c; try (right; discriminate). now left. }
  destruct D as [->|N].
  - destruct (proceed_offered _ _ R A) as (_ & L & _).
    simpl in H. injection H as <-. simpl.
    rewrite filter_app, length_app, F, L. reflexivity.
  - destruct (dispatch_other e (ui w) N) as [L Q].
    destruct (dispatch e (ui w)) as [s' q]. injection H as <-. simpl in *.
    now rewrite filter_app, Q, app_nil_r, L.
Qed.

Lemma settle_flag (w w' : World) (i : nat) (r : Response) :
  flag_matches w -> settle w i r = Some w' -> flag_matches w'.
Proof.
  unfold flag_matches, decodes, settle. intros F H.
  destruct (nth_error (inflight w) i) as [[v|v m]|] eqn:N; destruct r;
    try discriminate; injection H as <-; simpl.
  1, 2: pose proof (filter_remove_at_hit is_decode _ _ _ N eq_refl) as C;
        destruct (isLoading (ui w)); lia.
  1, 2: now rewrite (filter_remove_at_other is_decode _ _ _ N eq_refl).
Qed.

Lemma run_flag (es : list Event) (w w' : World) :
  flag_matches w -> run w es = Some w' -> flag_matches w'.
Proof.
  apply (run_invariant flag_matches (fun _ => true)); auto using forallb_any.
  intros x x' [u|i r] _ F S; simpl in S;
    eauto using user_step_flag, settle_flag.
Qed.

(** In every reachable state the flag is up exactly while one decode
    request is running; two never run together. *)
Lemma loading_iff_decoding (w : World) :
  reachable w -> flag_matches w.
Proof.
  intros [es H]. apply (run_flag es boot w); [reflexivity|exact H].
Qed.

Lemma at_most_one_decode (w : World) :
  reachable w -> (decodes w <= 1)%nat.
Proof.
  intros R. apply loading_iff_decoding in R. unfold flag_matches in R.
  destruct (isLoading (ui w)); lia.
Qed.

End InFlight.

(** C9. The code lets requests overlap. From the loading screen the back
    button leads to the review screen again, where a second generation is
    issued while the first is running; and six steps back, on the VIN
    screen, a decode is issued next to the running generation, because
    [isLoading] is raised by [handleVinSubmit] only. *)
Theorem requests_overlap :
  (exists w,
     run boot twice_generate = Some w /\
     screen (ui w) = 8 /\
     inflight w = [PostGeneratePathway camry mix; PostGeneratePathway camry mix]) /\
  (exists w,
     run boot generate_then_decode = Some w /\
     screen (ui w) = 2 /\
     inflight w = [PostGeneratePathway camry mix; GetDecodeVin sample_vin]).
Proof.
  split; eexists; (split; [vm_compute; reflexivity|split; reflexivity]).
Qed.

(** A generation that fails while a decode is running leaves its message
    behind on the manual entry screen. *)
Example overlap_leaves_message :
  option_map (fun w => (screen (ui w), errorMsg (ui w)))
    (run boot (generate_then_decode ++ [Settle 0 Failed; Settle 0 Failed])) =
  Some (3, "Failed to generate pathway.").
Proof. vm_compute. reflexivity. Qed.

(** C10. When a decode request settles, with a payload or with a failure,
    [isLoading] is false afterwards; after a failure one step back leads
    to the VIN screen, where Proceed is disabled only if the VIN is too
    short. On the VIN screen Proceed is disabled exactly when [isLoading]
    is set or the VIN has fewer than five characters. *)
Theorem decode_resets_flag (w : World) (i : nat) (v : string) :
  nth_error (inflight w) i = Some (GetDecodeVin v) ->
  (forall data, exists w',
     settle w i (Decoded data) = Some w' /\ isLoading (ui w') = false) /\
  (exists w' w'',
     settle w i Failed = Some w' /\ isLoading (ui w') = false /\
     user_step w' (Click BtnBack) = Some w'' /\
     option_map disabled (widget_of BtnProceed (ui w'')) =
       Some (String.length (vin (ui w)) <? 5)%nat) /\
  (forall s, screen s = 2 ->
     option_map disabled (widget_of BtnProceed s) =
       Some (isLoading s || (String.length (vin s) <? 5)%nat)%bool).
Proof.
  intros N. split; [|split].
  - intros data. eexists.
    split; [apply (decode_settles w i v (Some data) N)|reflexivity].
  - do 2 eexists.
    split; [apply (decode_settles w i v None N)|].
    split; [reflexivity|]. split; reflexivity.
  - intros s S. unfold widget_of, renderScreen. rewrite S. reflexivity.
Qed.

Lemma decode_resets_flag_witness :
  (forall data, exists w',
     settle decoding 0 (Decoded data) = Some w' /\ isLoading (ui w') = false) /\
  (exists w' w'',
     settle decoding 0 Failed = Some w' /\ isLoading (ui w') = false /\
     user_step w' (Click BtnBack) = Some w'' /\
     option_map disabled (widget_of BtnProceed (ui w'')) =
       Some (String.length (vin (ui decoding)) <? 5)%nat) /\
  (forall s, screen s = 2 ->
     option_map disabled (widget_of BtnProceed s) =
       Some (isLoading s || (String.length (vin s) <? 5)%nat)%bool).
Proof.
  apply (decode_resets_flag decoding 0 sample_vin). reflexivity.
Defined.

(* ================================================================== *)
(** ** Further properties of the component *)
(* ================================================================== *)

Section Inversion.

Lemma Control_eqb_eq (a b : Control) : Control_eqb a b = true -> a = b.
Proof.
  destruct a, b; simpl; try discriminate; auto.
  intros H. apply String.eqb_eq in H. now subst.
Qed.

(** An accepted user event comes from a widget of the page. *)
Lemma user_step_inv (w w' : World) (e : UserEvent) :
  user_step w e = Some w' ->
  exists v wd,
    renderScreen (ui w) = Some v /\
    In wd (widgets v) /\
    control wd = target e /\
    has_handler e = true /\
    disabled wd = false /\
    fits e wd = true /\
    w' = {| ui := fst (dispatch e (ui w));
            inflight := (inflight w ++ snd (dispatch e (ui w)))%list |}.
Proof.
  unfold user_step. intros H.
  destruct (renderScreen (ui w)) as [v|]; [|discriminate].
  destruct (accepts v e) eqn:A; [|discriminate].
  apply existsb_exists in A as (wd & I & T).
  unfold takes in T. apply andb_true_iff in T as [T F].
  apply andb_true_iff in T as [T D]. apply andb_true_iff in T as [C Hh].
  apply Control_eqb_eq in C. apply negb_true_iff in D.
  exists v, wd. repeat split; auto.
  destruct (dispatch e (ui w)) as [s' q]. now injection H as <-.
Qed.

(** The widgets of each page. *)
Lemma widgets_of_page (s : State) (v : View) (wd : Widget) :
  renderScreen s = Some v -> In wd (widgets v) ->
  match control wd with
  | BtnBack => 1 < screen s /\ maxLength wd = None
  | BtnStart => screen s = 1
  | InputVin => screen s = 2 /\ maxLength wd = Some 17%nat
  | BtnProceed =>
      screen s = 2 /\
      disabled wd = (isLoading s || (String.length (vin s) <? 5)%nat)%bool
  | InputYear | InputMake | InputModel | BtnConfirmVehicle => screen s = 3
  | BtnYesProceed | BtnDifferentVin => screen s = 4
  | BtnAutoEstimate | BtnEnterManually => screen s = 5
  | BtnGenerate | BtnEditValues => screen s = 6
  | InputMaterial key => screen s = 7 /\ In key (obj_keys (materials s))
  | BtnSaveReview => screen s = 7
  | BtnProcessNext => screen s = 9
  end.
Proof.
  intros R I. destruct (renderScreen_known s) as [E|E]; [congruence|].
  unfold renderScreen in R. simpl in E.
  repeat (destruct E as [E|E];
          [rewrite <- E in R; injection R as <-; symmetry in E;
           cbn [widgets Container Z.ltb Z.compare Pos.compare Pos.compare_cont app] in I;
           try (simpl in I;
                repeat (destruct I as [<-|I]; [simpl; repeat split; auto; lia|]);
                contradiction)|]);
    try contradiction.
  simpl in I. destruct I as [<-|I]; [simpl; split; [lia|reflexivity]|].
  apply in_app_or in I as [I|I].
  - apply in_map_iff in I as (k & <- & I). simpl. auto.
  - simpl in I. destruct I as [<-|[]]. simpl. auto.
Qed.

End Inversion.

(* ------------------------------------------------------------------ *)
(** *** The screen graph *)

Lemma back_edge (n : Z) : 1 < n <= 9 -> In (n, n - 1) edges.
Proof.
  intros H.
  assert (E : n = 2 \/ n = 3 \/ n = 4 \/ n = 5 \/ n = 6 \/ n = 7 \/ n = 8 \/ n = 9)
    by lia.
  repeat (destruct E as [->|E]; [pick_edge|]). subst n. pick_edge.
Qed.

(** X1. Whatever the user does on a page, the screen moves along one of
    the twenty edges of the table: forward by the buttons, one down by
    Back, or not at all. *)
Theorem user_moves_along_edges (w w' : World) (e : UserEvent) :
  user_step w e = Some w' ->
  In (screen (ui w), screen (ui w')) edges.
Proof.
  intros H.
  destruct (user_step_inv _ _ _ H) as (v & wd & R & I & C & Hh & _ & _ & ->).
  pose proof (widgets_of_page _ _ _ R I) as P. rewrite C in P.
  pose proof (renderScreen_bounds _ _ R) as B.
  destruct e as [c|c value|c value parsed]; destruct c;
    simpl in Hh; try discriminate Hh; simpl in P; cbn [ui];
    try match type of P with _ /\ _ => destruct P as [P ?] end; simpl;
    try (rewrite P; pick_edge; fail).
  - apply back_edge. lia.
  - unfold handleManualVehicleSubmit.
    destruct (_ || _)%bool; simpl; rewrite P; pick_edge.
Qed.

Lemma user_moves_along_edges_witness :
  user_step at_confirm (Click BtnDifferentVin) =
    Some {| ui := setScreen 2 (setVin "" (ui at_confirm)); inflight := [] |} /\
  In (screen (ui at_confirm), 2) edges.
Proof.
  split; [reflexivity|].
  exact (user_moves_along_edges at_confirm _ (Click BtnDifferentVin) eq_refl).
Defined.

(** X2. Every edge of the table is there for a reason: some page on its
    source screen takes a user event that leads to its target screen. *)
Theorem every_edge_is_taken :
  Forall (fun ab =>
            exists w e w',
              screen (ui w) = fst ab /\
              user_step w e = Some w' /\
              screen (ui w') = snd ab) edges.
Proof.
  pose (at_screen := fun n => {| ui := setScreen n (ui at_review); inflight := [] |}).
  pose (blank := fun n => {| ui := setScreen n initial; inflight := [] |}).
  unfold edges. repeat apply Forall_cons; [..|apply Forall_nil].
  - exists (at_screen 1), (Click BtnStart); eexists; repeat split.
  - exists (at_screen 2), (Click BtnBack); eexists; repeat split.
  - exists (at_screen 2), (Click BtnProceed); eexists; repeat split.
  - exists (at_screen 3), (Click BtnBack); eexists; repeat split.
  - exists (blank 3), (Click BtnConfirmVehicle); eexists; repeat split.
  - exists (at_screen 3), (Click BtnConfirmVehicle); eexists; repeat split.
  - exists (at_screen 4), (Click BtnBack); eexists; repeat split.
  - exists (at_screen 4), (Click BtnYesProceed); eexists; repeat split.
  - exists (at_screen 4), (Click BtnDifferentVin); eexists; repeat split.
  - exists (at_screen 5), (Click BtnBack); eexists; repeat split.
  - exists (at_screen 5), (Click BtnAutoEstimate); eexists; repeat split.
  - exists (at_screen 5), (Click BtnEnterManually); eexists; repeat split.
  - exists (at_screen 6), (Click BtnBack); eexists; repeat split.
  - exists (at_screen 6), (Click BtnGenerate); eexists; repeat split.
  - exists (at_screen 6), (Click BtnEditValues); eexists; repeat split.
  - exists (at_screen 7), (Click BtnBack); eexists; repeat split.
  - exists (at_screen 7), (Change (InputMaterial "Glass") "4.5"); eexists; repeat split.
  - exists (at_screen 8), (Click BtnBack); eexists; repeat split.
  - exists (at_screen 9), (Click BtnBack); eexists; repeat split.
  - exists (at_screen 9), (Click BtnProcessNext); eexists; repeat split.
Qed.

(* ------------------------------------------------------------------ *)
(** *** Who writes which cell *)

Section Writers.

Lemma dispatch_frame (e : UserEvent) (s : State) :
  (writes_vin (User e) = false -> vin (fst (dispatch e s)) = vin s) /\
  (writes_vehicle (User e) = false ->
     vehicleData (fst (dispatch e s)) = vehicleData s) /\
  (writes_materials (User e) = false ->
     materials (fst (dispatch e s)) = materials s) /\
  (writes_error (User e) = false -> errorMsg (fst (dispatch e s)) = errorMsg s).
Proof.
  destruct e as [c|c value|c value parsed]; destruct c; simpl;
    repeat split; intros; auto; try discriminate;
    unfold handleManualVehicleSubmit; destruct (_ || _)%bool; reflexivity.
Qed.

Lemma settle_frame (w w' : World) (i : nat) (r : Response) :
  settle w i r = Some w' ->
  vin (ui w') = vin (ui w) /\
  materials (ui w') = materials (ui w) /\
  (writes_vehicle (Settle i r) = false -> vehicleData (ui w') = vehicleData (ui w)) /\
  (writes_error (Settle i r) = false -> errorMsg (ui w') = errorMsg (ui w)).
Proof.
  unfold settle. intros H.
  destruct (nth_error (inflight w) i) as [[v|v m]|]; destruct r;
    try discriminate; injection H as <-; simpl;
    repeat split; intros; auto; discriminate.
Qed.

End Writers.

(** X3. Each data cell has few writers. A step changes the VIN only by
    typing in the VIN field or "No, Enter Different VIN"; the vehicle
    record only by typing in the three manual fields or a successful
    decode; the materials only by editing a material field; the error
    message only by the two submit clicks or a failed request; the pathway
    only by a successful generation. Navigation writes none of them. *)
Theorem cells_have_few_writers (w w' : World) (e : Event) :
  step w e = Some w' ->
  (writes_vin e = false -> vin (ui w') = vin (ui w)) /\
  (writes_vehicle e = false -> vehicleData (ui w') = vehicleData (ui w)) /\
  (writes_materials e = false -> materials (ui w') = materials (ui w)) /\
  (writes_error e = false -> errorMsg (ui w') = errorMsg (ui w)) /\
  (is_generated e = false -> pathway (ui w') = pathway (ui w)).
Proof.
  intros H. pose proof (fun G => step_pathway w w' e G H) as Pw.
  destruct e as [u|i r]; simpl in H.
  - destruct (user_step_inv _ _ _ H) as (_ & _ & _ & _ & _ & _ & _ & _ & ->).
    destruct (dispatch_frame u (ui w)) as (A & B & C & D).
    cbn [ui]. auto.
  - destruct (settle_frame _ _ _ _ H) as (A & B & C & D).
    repeat split; auto.
Qed.

Lemma cells_have_few_writers_witness :
  step at_results (User (Click BtnProcessNext)) =
    Some {| ui := setScreen 1 (ui at_results); inflight := [] |} /\
  vehicleData (setScreen 1 (ui at_results)) = vehicleData (ui at_results).
Proof.
  split; [reflexivity|].
  apply (cells_have_few_writers at_results _ (User (Click BtnProcessNext)) eq_refl).
  reflexivity.
Defined.

(* ------------------------------------------------------------------ *)
(** *** The materials object *)

Section Objects.

Variable key : string.
Variable value : JsVal.

Lemma obj_get_set_same (o : Obj) : obj_get key (obj_set key value o) = Some value.
Proof.
  induction o as [|[k v] o IH]; simpl.
  - now rewrite String.eqb_refl.
  - destruct (String.eqb k key) eqn:E; simpl; rewrite E; auto.
Qed.

Lemma obj_get_set_other (other : string) (o : Obj) :
  other <> key -> obj_get other (obj_set key value o) = obj_get other o.
Proof.
  intros N. apply String.eqb_neq in N.
  induction o as [|[k v] o IH]; simpl.
  - rewrite String.eqb_sym. now rewrite N.
  - destruct (String.eqb k key) eqn:E; simpl.
    + apply String.eqb_eq in E. subst k. rewrite String.eqb_sym. now rewrite N.
    + destruct (String.eqb k other); auto.
Qed.

Lemma obj_keys_set (o : Obj) :
  In key (obj_keys o) -> obj_keys (obj_set key value o) = obj_keys o.
Proof.
  unfold obj_keys. induction o as [|[k v] o IH]; simpl; [contradiction|].
  intros [->|I].
  - now rewrite String.eqb_refl.
  - destruct (String.eqb k key); simpl; [reflexivity|]. now rewrite IH.
Qed.

Lemma forallb_obj_set (p : JsVal -> bool) (o : Obj) :
  p value = true ->
  forallb (fun kv => p (snd kv)) o = true ->
  forallb (fun kv => p (snd kv)) (obj_set key value o) = true.
Proof.
  intros V. induction o as [|[k v] o IH]; simpl.
  - now rewrite V.
  - intros H. apply andb_true_iff in H as [H1 H2].
    destruct (String.eqb k key); simpl.
    + now rewrite V.
    + now rewrite H1, IH.
Qed.

End Objects.

(* ------------------------------------------------------------------ *)
(** *** Shapes kept along every run *)

Section Shapes.

Lemma In_remove_at {A : Type} (x : A) (i : nat) (l : list A) :
  In x (remove_at i l) -> In x l.
Proof.
  revert i. induction l as [|a l IH]; intros [|i]; simpl; auto.
  intros [->|H]; eauto.
Qed.

Lemma settle_inflight (w w' : World) (i : nat) (r : Response) :
  settle w i r = Some w' -> inflight w' = remove_at i (inflight w).
Proof.
  unfold settle. intros H.
  destruct (nth_error (inflight w) i) as [[v|v m]|]; destruct r;
    try discriminate; now injection H as <-.
Qed.

(** What a handler sends. *)
Lemma issued_generate (e : UserEvent) (s : State) (v : VehicleData) (m : Obj) :
  In (PostGeneratePathway v m) (snd (dispatch e s)) ->
  v = vehicleData s /\ m = materials s.
Proof.
  destruct e as [c|c value|c value parsed]; destruct c; simpl;
    try tauto; intros [H|[]]; try discriminate.
  injection H as <- <-. auto.
Qed.

Lemma issued_decode (e : UserEvent) (s : State) (v : string) :
  In (GetDecodeVin v) (snd (dispatch e s)) ->
  e = Click BtnProceed /\ v = vin s.
Proof.
  destruct e as [c|c value|c value parsed]; destruct c; simpl;
    try tauto; intros [H|[]]; try discriminate.
  injection H as <-. auto.
Qed.

Lemma or_number_not_nan (a : float) :
  PrimFloat.is_nan (or_number a 0%float) = false.
Proof.
  unfold or_number, truthy_number.
  destruct (PrimFloat.eqb a 0 || PrimFloat.is_nan a)%bool eqn:E; simpl.
  - reflexivity.
  - now apply orb_false_iff in E.
Qed.

Lemma upper_char_idem (c : ascii) : upper_char (upper_char c) = upper_char c.
Proof. destruct c as [[] [] [] [] [] [] [] []]; reflexivity. Qed.

Lemma toUpperCase_idem (t : string) : toUpperCase (toUpperCase t) = toUpperCase t.
Proof.
  induction t as [|c t IH]; simpl; auto. now rewrite upper_char_idem, IH.
Qed.

Lemma upper_char_ascii (c : ascii) :
  (nat_of_ascii c <? 128)%nat = true ->
  (nat_of_ascii (upper_char c) <? 128)%nat = true.
Proof. destruct c as [[] [] [] [] [] [] [] []]; simpl; auto. Qed.

Lemma toUpperCase_ascii (t : string) :
  is_ascii t = true -> is_ascii (toUpperCase t) = true.
Proof.
  induction t as [|c t IH]; simpl; auto.
  intros H. apply andb_true_iff in H as [H1 H2].
  now rewrite upper_char_ascii, IH.
Qed.

Lemma toUpperCase_length (t : string) :
  String.length (toUpperCase t) = String.length t.
Proof. induction t as [|c t IH]; simpl; auto. Qed.

Lemma user_step_materials (w w' : World) (e : UserEvent) :
  materials_everywhere w -> user_step w e = Some w' -> materials_everywhere w'.
Proof.
  intros [[K V] Q] H.
  destruct (user_step_inv _ _ _ H) as (v & wd & R & I & C & _ & _ & _ & ->).
  pose proof (widgets_of_page _ _ _ R I) as P. rewrite C in P.
  split; cbn [ui inflight].
  - destruct (writes_materials (User e)) eqn:W.
    + destruct e as [c|c value|c value parsed]; destruct c; try discriminate W;
        simpl in P; destruct P as [_ P]; unfold materials_shape; simpl;
        (split; [now rewrite obj_keys_set|]);
        apply forallb_obj_set; auto.
      simpl. destruct (String.eqb value ""); [reflexivity|].
      now rewrite or_number_not_nan.
    + destruct (dispatch_frame e (ui w)) as (_ & _ & M & _).
      unfold materials_shape. rewrite (M W). auto.
  - intros x m J. apply in_app_or in J as [J|J]; [eauto|].
    apply issued_generate in J as [_ ->]. exact K.
Qed.

Lemma settle_materials (w w' : World) (i : nat) (r : Response) :
  materials_everywhere w -> settle w i r = Some w' -> materials_everywhere w'.
Proof.
  intros [[K V] Q] H.
  destruct (settle_frame _ _ _ _ H) as (_ & M & _).
  unfold materials_everywhere. rewrite (settle_inflight _ _ _ _ H).
  split; [unfold materials_shape; rewrite M; auto|].
  intros x m J. apply In_remove_at in J. eauto.
Qed.

Lemma user_step_vins (w w' : World) (e : UserEvent) :
  types_ascii (User e) = true ->
  vins_shape w -> user_step w e = Some w' -> vins_shape w'.
Proof.
  intros T [N Q] H.
  destruct (user_step_inv _ _ _ H) as (v & wd & R & I & C & _ & D & F & ->).
  pose proof (widgets_of_page _ _ _ R I) as P. rewrite C in P.
  split; cbn [ui inflight].
  - destruct (writes_vin (User e)) eqn:W.
    + destruct e as [c|c value|c value parsed]; destruct c; try discriminate W;
        simpl.
      * split; [simpl; lia|split; reflexivity].
      * simpl in P, T. destruct P as [_ P]. unfold fits in F. rewrite P in F.
        apply Nat.leb_le in F.
        split; [now rewrite toUpperCase_length|].
        split; [now apply toUpperCase_ascii | apply toUpperCase_idem].
    + destruct (dispatch_frame e (ui w)) as (M & _). now rewrite (M W).
  - intros x J. apply in_app_or in J as [J|J]; [eauto|].
    apply issued_decode in J as [-> ->].
    simpl in P. destruct P as [_ P]. rewrite D in P.
    symmetry in P. apply orb_false_iff in P as [_ P]. apply Nat.ltb_ge in P.
    auto.
Qed.

Lemma settle_vins (w w' : World) (i : nat) (r : Response) :
  vins_shape w -> settle w i r = Some w' -> vins_shape w'.
Proof.
  intros [N Q] H.
  destruct (settle_frame _ _ _ _ H) as (M & _).
  unfold vins_shape. rewrite (settle_inflight _ _ _ _ H).
  split; [now rewrite M|].
  intros x J. apply In_remove_at in J. eauto.
Qed.

End Shapes.

(** X5. In every reachable state the materials object has the six keys
    Steel, Aluminum, Copper, Plastics, Rubber, Glass in that order, and
    each value is text being typed or a number that is not NaN; every
    generation request that has not settled carries the six keys too. *)
Theorem materials_keep_their_shape (w : World) :
  reachable w -> materials_everywhere w.
Proof.
  intros [es H].
  apply (run_invariant materials_everywhere (fun _ => true))
    with (es := es) (w := boot) (w' := w); auto using forallb_any.
  - intros x x' [u|i r] _ M S; simpl in S;
      eauto using user_step_materials, settle_materials.
  - split; [split; reflexivity|]. intros v m [].
Qed.

Lemma materials_keep_their_shape_witness :
  reachable at_loading /\ materials_everywhere at_loading.
Proof.
  assert (R : reachable at_loading).
  { exists (to_review ++ [User (Click BtnGenerate)])%list. vm_compute. reflexivity. }
  split; [exact R | exact (materials_keep_their_shape at_loading R)].
Defined.

(** X6. Along every run from the landing page in which only ASCII text
    is typed into the VIN field, the VIN cell holds at most 17 characters,
    none of them a lower-case letter, and every decode request that has
    not settled is for such a VIN of five characters or more. *)
Theorem vins_keep_their_shape (es : list Event) (w : World) :
  forallb types_ascii es = true ->
  run boot es = Some w ->
  vins_shape w.
Proof.
  intros T H.
  apply (run_invariant vins_shape types_ascii) with (es := es) (w := boot);
    auto.
  - intros x x' [u|i r] A M S; simpl in S;
      eauto using user_step_vins, settle_vins.
  - split; [split; [simpl; lia|split; reflexivity]|]. intros v [].
Qed.

Lemma vins_keep_their_shape_witness :
  forallb types_ascii
    [ User (Click BtnStart); User (Change InputVin "1hgbh41jxmn109186");
      User (Click BtnProceed) ] = true /\
  run boot [ User (Click BtnStart); User (Change InputVin "1hgbh41jxmn109186");
             User (Click BtnProceed) ] = Some decoding /\
  vins_shape decoding.
Proof.
  assert (T : forallb types_ascii
                [ User (Click BtnStart); User (Change InputVin "1hgbh41jxmn109186");
                  User (Click BtnProceed) ] = true) by reflexivity.
  assert (R : run boot [ User (Click BtnStart);
                         User (Change InputVin "1hgbh41jxmn109186");
                         User (Click BtnProceed) ] = Some decoding)
    by (vm_compute; reflexivity).
  split; [exact T|]. split; [exact R|].
  exact (vins_keep_their_shape _ decoding T R).
Defined.

(* ------------------------------------------------------------------ *)
(** *** Guards and dead ends *)

Lemma proceed_needs_flag_down (w w' : World) :
  user_step w (Click BtnProceed) = Some w' ->
  screen (ui w) = 2 /\ isLoading (ui w) = false /\
  (5 <= String.length (vin (ui w)))%nat.
Proof.
  intros H.
  destruct (user_step_inv _ _ _ H) as (v & wd & R & I & C & _ & D & _ & _).
  pose proof (widgets_of_page _ _ _ R I) as P. rewrite C in P. simpl in P.
  destruct P as [S P]. rewrite D in P. symmetry in P.
  apply orb_false_iff in P as [L V]. apply Nat.ltb_ge in V. auto.
Qed.

Lemma only_back_on_loading (w w' : World) (u : UserEvent) :
  screen (ui w) = 8 -> user_step w u = Some w' ->
  u = Click BtnBack /\ w' = {| ui := setScreen 7 (ui w); inflight := inflight w |}.
Proof.
  intros S H.
  destruct (user_step_inv _ _ _ H) as (v & wd & R & I & C & Hh & _ & _ & ->).
  pose proof (widgets_of_page _ _ _ R I) as P. rewrite C in P.
  destruct u as [c|c value|c value parsed]; destruct c;
    simpl in Hh; try discriminate Hh; simpl in P;
    try match type of P with _ /\ _ => destruct P as [P ?] end;
    try (rewrite S in P; discriminate P).
  split; [reflexivity|]. simpl. now rewrite S, app_nil_r.
Qed.

(** X7. In every reachable state [isLoading] is up exactly while one
    decode request is running, and while one is running a click on
    Proceed is never taken: a decode is not submitted twice. *)
Theorem decode_never_resubmitted (w : World) :
  reachable w ->
  decodes w = (if isLoading (ui w) then 1%nat else 0%nat) /\
  ((1 <= decodes w)%nat -> user_step w (Click BtnProceed) = None).
Proof.
  intros R. pose proof (loading_iff_decoding w R) as F. unfold flag_matches in F.
  split; [exact F|]. intros D.
  destruct (user_step w (Click BtnProceed)) as [w'|] eqn:H; [|reflexivity].
  apply proceed_needs_flag_down in H as (_ & L & _).
  rewrite L in F. lia.
Qed.

Lemma decode_never_resubmitted_witness :
  reachable decoding /\
  decodes decoding = (if isLoading (ui decoding) then 1%nat else 0%nat) /\
  ((1 <= decodes decoding)%nat -> user_step decoding (Click BtnProceed) = None).
Proof.
  assert (R : reachable decoding).
  { exists [ User (Click BtnStart); User (Change InputVin "1hgbh41jxmn109186");
             User (Click BtnProceed) ].
    vm_compute. reflexivity. }
  split; [exact R | exact (decode_never_resubmitted decoding R)].
Defined.

(** X8. A page on a screen number outside 1..9 is a dead end for the
    user: nothing is rendered but the "Screen not found" text and no user
    event is taken. *)
Theorem unknown_screen_is_dead (w : World) :
  ~ (1 <= screen (ui w) <= 9) ->
  renderScreen (ui w) = None /\ forall e, user_step w e = None.
Proof.
  intros N.
  assert (R : renderScreen (ui w) = None).
  { destruct (renderScreen (ui w)) as [v|] eqn:R; [|reflexivity].
    apply renderScreen_bounds in R. contradiction. }
  split; [exact R|]. intros e. unfold user_step. now rewrite R.
Qed.

Lemma unknown_screen_is_dead_witness :
  ~ (1 <= screen (ui off_the_map) <= 9) /\
  renderScreen (ui off_the_map) = None /\
  forall e, user_step off_the_map e = None.
Proof.
  assert (N : ~ (1 <= screen (ui off_the_map) <= 9)) by (simpl; lia).
  split; [exact N | exact (unknown_screen_is_dead off_the_map N)].
Defined.

(** X9. Back on the result screen leads to the loading screen although
    no request is running: with nothing in flight the spinner page takes
    no event of any kind but another Back, which leads to screen 7. *)
Theorem back_from_results_shows_idle_spinner (w : World) :
  screen (ui w) = 9 ->
  inflight w = [] ->
  exists w',
    user_step w (Click BtnBack) = Some w' /\
    screen (ui w') = 8 /\
    inflight w' = [] /\
    forall e w'', step w' e = Some w'' ->
                  e = User (Click BtnBack) /\ screen (ui w'') = 7.
Proof.
  intros S Q.
  assert (B : user_step w (Click BtnBack) =
              Some {| ui := setScreen 8 (ui w); inflight := [] |}).
  { unfold user_step, renderScreen. rewrite S. simpl. now rewrite S, Q. }
  eexists. split; [exact B|]. split; [reflexivity|]. split; [reflexivity|].
  intros [u|i r] w'' H; simpl in H.
  - apply only_back_on_loading in H as [-> ->]; auto.
  - unfold settle in H. simpl in H. destruct i; discriminate H.
Qed.

Lemma back_from_results_shows_idle_spinner_witness :
  exists w',
    user_step at_results (Click BtnBack) = Some w' /\
    screen (ui w') = 8 /\
    inflight w' = [] /\
    forall e w'', step w' e = Some w'' ->
                  e = User (Click BtnBack) /\ screen (ui w'') = 7.
Proof.
  apply (back_from_results_shows_idle_spinner at_results); reflexivity.
Defined.

(* ------------------------------------------------------------------ *)
(** *** Sequences of actions *)

(** X10. A generation that succeeds does not clear the error message: a
    failed attempt followed by a successful retry ends on the result
    screen with the new pathway and with the error box still showing
    "Failed to generate pathway.". *)
Theorem retry_keeps_error_box (w : World) (p : list PathwayStep) :
  screen (ui w) = 6 ->
  inflight w = [] ->
  exists w',
    run w [ User (Click BtnGenerate); Settle 0 Failed;
            User (Click BtnGenerate); Settle 0 (Generated p) ] = Some w' /\
    screen (ui w') = 9 /\
    pathway (ui w') = Some p /\
    option_map errorBox (renderScreen (ui w')) =
      Some (Some "Failed to generate pathway.").
Proof.
  intros S Q. cbn [run step].
  rewrite (generate_accepted w S), Q. simpl.
  eexists. repeat split.
Qed.

Lemma retry_keeps_error_box_witness :
  exists w',
    run at_review [ User (Click BtnGenerate); Settle 0 Failed;
                    User (Click BtnGenerate); Settle 0 (Generated plan) ] = Some w' /\
    screen (ui w') = 9 /\
    pathway (ui w') = Some plan /\
    option_map errorBox (renderScreen (ui w')) =
      Some (Some "Failed to generate pathway.").
Proof.
  apply (retry_keeps_error_box at_review plan); reflexivity.
Defined.

Section SingleSteps.

Variable w : World.

Lemma change_field_accepted (c : Control) (value : string) :
  screen (ui w) = 3 ->
  In c [InputYear; InputMake; InputModel] ->
  user_step w (Change c value) =
  Some {| ui := onChange c value (ui w); inflight := inflight w |}.
Proof.
  intros S I. unfold user_step, renderScreen. rewrite S.
  simpl in I. destruct I as [<-|[<-|[<-|[]]]]; simpl; now rewrite app_nil_r.
Qed.

Lemma different_vin_accepted :
  screen (ui w) = 4 ->
  user_step w (Click BtnDifferentVin) =
  Some {| ui := setScreen 2 (setVin "" (ui w)); inflight := inflight w |}.
Proof.
  intros S. unfold user_step, renderScreen. rewrite S. simpl.
  now rewrite app_nil_r.
Qed.

Lemma vin_typed_accepted (value : string) :
  screen (ui w) = 2 ->
  (String.length value <= 17)%nat ->
  user_step w (Change InputVin value) =
  Some {| ui := setVin (toUpperCase value) (ui w); inflight := inflight w |}.
Proof.
  intros S V. unfold user_step, renderScreen. rewrite S.
  unfold accepts, takes; simpl. apply Nat.leb_le in V. rewrite V. simpl.
  now rewrite app_nil_r.
Qed.

End SingleSteps.

Lemma valid_float_text_not_empty (t : string) :
  valid_float_text t = true -> t <> "".
Proof. intros H E. subst t. discriminate H. Qed.

(** X11. On the manual entry screen, when the year field hands over the
    text of a valid number and the make and model fields hand over texts
    that are not empty, Confirm Vehicle leads to screen 4 with exactly
    these three strings as the vehicle record, the error message cleared
    and no request issued. *)
Theorem typed_vehicle_is_confirmed (w : World) (y m d : string) :
  screen (ui w) = 3 ->
  valid_float_text y = true -> m <> "" -> d <> "" ->
  exists w',
    run w [ User (Change InputYear y); User (Change InputMake m);
            User (Change InputModel d); User (Click BtnConfirmVehicle) ] = Some w' /\
    screen (ui w') = 4 /\
    vehicleData (ui w') = {| year := JStr y; make := JStr m; model := JStr d |} /\
    errorMsg (ui w') = "" /\
    inflight w' = inflight w.
Proof.
  intros S Y M D. apply valid_float_text_not_empty in Y.
  assert (T : some_missing {| year := JStr y; make := JStr m; model := JStr d |}
              = false).
  { destruct (some_missing _) eqn:E; auto.
    apply some_missing_strings in E. tauto. }
  cbn [run step].
  rewrite change_field_accepted by (simpl; auto).
  rewrite change_field_accepted by (simpl; auto).
  rewrite change_field_accepted by (simpl; auto).
  rewrite confirm_vehicle_accepted by (simpl; auto).
  eexists. split; [reflexivity|]. cbn [ui inflight].
  unfold handleManualVehicleSubmit.
  change (vehicleData (onChange InputModel d
            (onChange InputMake m (onChange InputYear y (ui w)))))
    with {| year := JStr y; make := JStr m; model := JStr d |}.
  fold (some_missing {| year := JStr y; make := JStr m; model := JStr d |}).
  rewrite T. repeat split.
Qed.

Lemma typed_vehicle_is_confirmed_witness :
  exists w',
    run at_manual [ User (Change InputYear "2015"); User (Change InputMake "Toyota");
                    User (Change InputModel "Camry");
                    User (Click BtnConfirmVehicle) ] = Some w' /\
    screen (ui w') = 4 /\
    vehicleData (ui w') =
      {| year := JStr "2015"; make := JStr "Toyota"; model := JStr "Camry" |} /\
    errorMsg (ui w') = "" /\
    inflight w' = inflight at_manual.
Proof.
  apply (typed_vehicle_is_confirmed at_manual "2015" "Toyota" "Camry");
    [reflexivity | reflexivity | discriminate | discriminate].
Defined.

(** X12. On the confirmation screen with no decode running, "No, Enter
    Different VIN" empties the VIN but keeps the vehicle record: right
    after it Proceed takes no click, and once an ASCII text of 5 to 17
    characters is typed, Proceed issues the decode for the upper-cased
    text. *)
Theorem different_vin_starts_over (w : World) (v : string) :
  screen (ui w) = 4 ->
  isLoading (ui w) = false ->
  is_ascii v = true ->
  (5 <= String.length v <= 17)%nat ->
  run w [ User (Click BtnDifferentVin); User (Click BtnProceed) ] = None /\
  exists w',
    run w [ User (Click BtnDifferentVin); User (Change InputVin v);
            User (Click BtnProceed) ] = Some w' /\
    screen (ui w') = 2 /\
    isLoading (ui w') = true /\
    vehicleData (ui w') = vehicleData (ui w) /\
    inflight w' = (inflight w ++ [GetDecodeVin (toUpperCase v)])%list.
Proof.
  intros S L _ [V1 V2]. cbn [run step].
  rewrite different_vin_accepted by assumption. split.
  - destruct (user_step _ (Click BtnProceed)) as [w'|] eqn:H; [|reflexivity].
    apply proceed_needs_flag_down in H as (_ & _ & H). simpl in H. lia.
  - rewrite vin_typed_accepted by (simpl; auto).
    rewrite proceed_accepted
      by (simpl; auto; rewrite toUpperCase_length; exact V1).
    eexists. split; [reflexivity|]. repeat split.
Qed.

Lemma different_vin_starts_over_witness :
  run at_confirm [ User (Click BtnDifferentVin); User (Click BtnProceed) ] = None /\
  exists w',
    run at_confirm [ User (Click BtnDifferentVin); User (Change InputVin "wvwzzz1jz3w386752");
                     User (Click BtnProceed) ] = Some w' /\
    screen (ui w') = 2 /\
    isLoading (ui w') = true /\
    vehicleData (ui w') = vehicleData (ui at_confirm) /\
    inflight w' = (inflight at_confirm ++ [GetDecodeVin (toUpperCase "wvwzzz1jz3w386752")])%list.
Proof.
  apply (different_vin_starts_over at_confirm "wvwzzz1jz3w386752");
    [reflexivity | reflexivity | reflexivity | simpl; lia].
Defined.

(* ------------------------------------------------------------------ *)
(** *** The profit total *)

Section FixedNotation.










End FixedNotation.




(* ------------------------------------------------------------------ *)
(** *** Editing a material and starting the next vehicle *)

Lemma material_field_taken (e : UserEvent) (k : string) (keys : list string) :
  target e = InputMaterial k -> has_handler e = true -> In k keys ->
  existsb (takes e) (map (fun key => input (InputMaterial key)) keys) = true.
Proof.
  intros T Hh I. apply existsb_exists. exists (input (InputMaterial k)).
  split; [apply in_map_iff; eauto|].
  unfold takes. rewrite T, Hh. simpl. rewrite String.eqb_refl.
  destruct e; reflexivity.
Qed.

(** X4. When a material field on the edit screen hands a value to
    [onChange], that string is stored under the field's key and read back
    by [materials[key]]; the other materials read as before, the keys
    keep their order (so the table rows do not move), the screen stays
    and nothing is sent. *)
Theorem change_stores_the_text (w : World) (k value : string) :
  screen (ui w) = 7 ->
  In k (obj_keys (materials (ui w))) ->
  exists w',
    user_step w (Change (InputMaterial k) value) = Some w' /\
    obj_get k (materials (ui w')) = Some (JStr value) /\
    (forall other, other <> k ->
       obj_get other (materials (ui w')) = obj_get other (materials (ui w))) /\
    obj_keys (materials (ui w')) = obj_keys (materials (ui w)) /\
    screen (ui w') = 7 /\
    inflight w' = inflight w.
Proof.
  intros S I.
  assert (A : user_step w (Change (InputMaterial k) value) =
              Some {| ui := onChange (InputMaterial k) value (ui w);
                      inflight := inflight w |}).
  { unfold user_step, renderScreen. rewrite S.
    unfold accepts. cbn [widgets Container Z.ltb Z.compare Pos.compare
                          Pos.compare_cont app existsb].
    rewrite existsb_app, (material_field_taken _ k) by auto.
    rewrite orb_true_r. simpl. now rewrite app_nil_r. }
  eexists. split; [exact A|]. cbn [ui inflight onChange materials setMaterials].
  split; [apply obj_get_set_same|].
  split; [intros; now apply obj_get_set_other|].
  split; [now apply obj_keys_set|]. split; [exact S|reflexivity].
Qed.

Lemma change_stores_the_text_witness :
  exists w',
    user_step at_edit (Change (InputMaterial "Copper") "7.5") = Some w' /\
    obj_get "Copper" (materials (ui w')) = Some (JStr "7.5") /\
    (forall other, other <> "Copper" ->
       obj_get other (materials (ui w')) = obj_get other (materials (ui at_edit))) /\
    obj_keys (materials (ui w')) = obj_keys (materials (ui at_edit)) /\
    screen (ui w') = 7 /\
    inflight w' = inflight at_edit.
Proof.
  apply (change_stores_the_text at_edit "Copper" "7.5").
  - reflexivity.
  - simpl. auto.
Defined.

(** X14. Leaving a material field on the edit screen stores a number
    under that key: 0 when the field is empty or its text does not parse
    to a number other than 0, the parsed number otherwise. The other
    materials, the keys and the screen stay as they are, and nothing is
    sent. *)
Theorem blur_stores_a_number (w : World) (k text : string) (parsed : float) :
  screen (ui w) = 7 ->
  In k (obj_keys (materials (ui w))) ->
  exists w',
    user_step w (Blur (InputMaterial k) text parsed) = Some w' /\
    obj_get k (materials (ui w')) =
      Some (JNum (if (String.eqb text "" || negb (truthy_number parsed))%bool
                  then 0%float else parsed)) /\
    (forall other, other <> k ->
       obj_get other (materials (ui w')) = obj_get other (materials (ui w))) /\
    obj_keys (materials (ui w')) = obj_keys (materials (ui w)) /\
    screen (ui w') = 7 /\
    inflight w' = inflight w.
Proof.
  intros S I.
  assert (A : user_step w (Blur (InputMaterial k) text parsed) =
              Some {| ui := onBlur (InputMaterial k) text parsed (ui w);
                      inflight := inflight w |}).
  { unfold user_step, renderScreen. rewrite S.
    unfold accepts. cbn [widgets Container Z.ltb Z.compare Pos.compare
                          Pos.compare_cont app existsb].
    rewrite existsb_app, (material_field_taken _ k) by auto.
    rewrite orb_true_r. simpl. now rewrite app_nil_r. }
  eexists. split; [exact A|]. cbn [ui inflight onBlur materials setMaterials].
  split.
  - rewrite obj_get_set_same. unfold or_number.
    destruct (String.eqb text ""); simpl; [reflexivity|].
    destruct (truthy_number parsed); reflexivity.
  - split; [intros; now apply obj_get_set_other|].
    split; [now apply obj_keys_set|]. split; [exact S|reflexivity].
Qed.

Lemma blur_stores_a_number_witness :
  exists w',
    user_step at_edit (Blur (InputMaterial "Copper") "7.5" 7.5) = Some w' /\
    obj_get "Copper" (materials (ui w')) =
      Some (JNum (if (String.eqb "7.5" "" || negb (truthy_number 7.5))%bool
                  then 0%float else 7.5%float)) /\
    (forall other, other <> "Copper" ->
       obj_get other (materials (ui w')) = obj_get other (materials (ui at_edit))) /\
    obj_keys (materials (ui w')) = obj_keys (materials (ui at_edit)) /\
    screen (ui w') = 7 /\
    inflight w' = inflight at_edit.
Proof.
  apply (blur_stores_a_number at_edit "Copper" "7.5" 7.5).
  - reflexivity.
  - simpl. auto.
Defined.

(** X15. "Process Next Vehicle" does not empty the VIN field: after it,
    Start leads to a VIN screen on which Proceed is taken at once and
    issues a decode for the VIN of the previous vehicle. *)
Theorem next_vehicle_keeps_old_vin (w : World) :
  screen (ui w) = 9 ->
  isLoading (ui w) = false ->
  (5 <= String.length (vin (ui w)))%nat ->
  exists w',
    run w [ User (Click BtnProcessNext); User (Click BtnStart);
            User (Click BtnProceed) ] = Some w' /\
    screen (ui w') = 2 /\
    isLoading (ui w') = true /\
    inflight w' = (inflight w ++ [GetDecodeVin (vin (ui w))])%list.
Proof.
  intros S L V. cbn [run step].
  assert (A : user_step w (Click BtnProcessNext) =
              Some {| ui := setScreen 1 (ui w); inflight := inflight w |}).
  { unfold user_step, renderScreen. rewrite S. simpl. now rewrite app_nil_r. }
  rewrite A.
  assert (B : user_step {| ui := setScreen 1 (ui w); inflight := inflight w |}
                (Click BtnStart) =
              Some {| ui := setScreen 2 (ui w); inflight := inflight w |}).
  { unfold user_step, renderScreen. simpl. now rewrite app_nil_r. }
  rewrite B. rewrite proceed_accepted by (simpl; auto).
  eexists. split; [reflexivity|]. repeat split.
Qed.

Lemma next_vehicle_keeps_old_vin_witness :
  exists w',
    run at_results [ User (Click BtnProcessNext); User (Click BtnStart);
                     User (Click BtnProceed) ] = Some w' /\
    screen (ui w') = 2 /\
    isLoading (ui w') = true /\
    inflight w' = (inflight at_results ++ [GetDecodeVin (vin (ui at_results))])%list.
Proof.
  apply (next_vehicle_keeps_old_vin at_results);
    [reflexivity | reflexivity | simpl; lia].
Defined.
